(** * TechNest account API: the two-factor authentication routes

    A shallow embedding of the Express account router (the login route and
    the five [/2fa/*] routes) over an explicit user store.

    - A Mongoose document is a record; [User.findOne], [User.findById] and
      [user.save()] act on a list of documents.
    - A route body is a computation in a small monad [Route]: it threads the
      store, can leave early with a response ([return res.status(..).json(..)])
      and can throw; [handle] is the route's [try { .. } catch] wrapper, which
      turns a throw into [500 { message: 'Server error' }].
    - The helpers of [utils/twoFactorAuth], the [User] model's
      [comparePassword] and [jwt.sign] are collaborators: they are section
      variables, so every theorem holds for any implementation of them. *)

From Stdlib Require Import String List ZArith Bool Lia.
Import ListNotations.
Local Open Scope string_scope.
Local Open Scope list_scope.

(** ** Documents *)

Record SecuritySettings : Type := {
  twoFactorEnabled : bool;
  twoFactorSecret : option string;          (* encrypted blob, or undefined *)
  twoFactorBackupCodes : option (list string) (* array, or undefined *)
}.

Record User : Type := {
  _id : string;
  username : string;
  email : string;
  password : string;
  role : string;
  isEmailVerified : bool;
  securitySettings : SecuritySettings
}.

Definition Db : Type := list User.

Definition with_securitySettings (u : User) (s : SecuritySettings) : User :=
  {| _id := _id u; username := username u; email := email u;
     password := password u; role := role u;
     isEmailVerified := isEmailVerified u; securitySettings := s |}.

(** ** Responses: a status and a JSON body *)

#[warnings="-register-all"]
Inductive Json : Type :=
| JStr (s : string)
| JBool (b : bool)
| JArr (items : list Json)
| JObj (fields : list (string * Json)).

Record Response : Type := { status : nat; json : Json }.

Fixpoint assoc (k : string) (fields : list (string * Json)) : option Json :=
  match fields with
  | [] => None
  | (k', v) :: rest => if String.eqb k k' then Some v else assoc k rest
  end.

(** [body.key], [None] when the body has no such key. *)
Definition field (k : string) (r : Response) : option Json :=
  match json r with
  | JObj fields => assoc k fields
  | _ => None
  end.

Definition message (m : string) : Json := JObj [("message", JStr m)].

(** ** The route monad *)

Inductive Flow (A : Type) : Type :=
| Next (a : A)          (* fall through to the next statement *)
| Sent (r : Response)   (* the response went out and the handler returned *)
| Thrown.               (* an exception is propagating *)
Arguments Next {A} a.
Arguments Sent {A} r.
Arguments Thrown {A}.

Definition Route (A : Type) : Type := Db -> Db * Flow A.

Definition ret {A} (a : A) : Route A := fun db => (db, Next a).

Definition bind {A B} (m : Route A) (k : A -> Route B) : Route B :=
  fun db =>
    match m db with
    | (db', Next a) => k a db'
    | (db', Sent r) => (db', Sent r)
    | (db', Thrown) => (db', Thrown)
    end.

Declare Scope route_scope.
Delimit Scope route_scope with route.
Notation "x <- m ;; k" := (bind m (fun x => k))
  (at level 61, m at next level, right associativity) : route_scope.
Notation "m ;; k" := (bind m (fun _ => k))
  (at level 61, right associativity) : route_scope.
Local Open Scope route_scope.

(** [res.status(code).json(body)] as the handler's last action. *)
Definition respond {A} (code : nat) (body : Json) : Route A :=
  fun db => (db, Sent {| status := code; json := body |}).

Definition throw {A} : Route A := fun db => (db, Thrown).

(** A helper that may throw, lifted into the route. *)
Definition attempt {A} (o : option A) : Route A :=
  match o with
  | Some a => ret a
  | None => throw
  end.

(** The first document with a given email, with a given [_id]. *)
Definition byEmail (e : string) (db : Db) : option User :=
  find (fun u => String.eqb (email u) e) db.

Definition byId (i : string) (db : Db) : option User :=
  find (fun u => String.eqb (_id u) i) db.

(** The store after a document is written back under its [_id]. *)
Definition put (u : User) (db : Db) : Db :=
  map (fun v => if String.eqb (_id v) (_id u) then u else v) db.

(** [User.findOne({ email })] *)
Definition findOne (e : string) : Route (option User) :=
  fun db => (db, Next (byEmail e db)).

(** [User.findById(id)] *)
Definition findById (i : string) : Route (option User) :=
  fun db => (db, Next (byId i db)).

(** [user.save()] *)
Definition save (u : User) : Route unit :=
  fun db => (put u db, Next tt).

(** The [try { .. } catch (error) { res.status(500).. }] around every route. *)
Definition handle (body : Route Empty_set) (db : Db) : Db * Response :=
  match body db with
  | (db', Next a) => match a with end
  | (db', Sent r) => (db', r)
  | (db', Thrown) => (db', {| status := 500; json := message "Server error" |})
  end.

(** ** The routes *)

Record GeneratedSecret : Type := { base32 : string; otpauth_url : string }.

(** How many backup codes a user has left ([undefined] holds none). *)
Definition codesLeft (u : User) : nat :=
  match twoFactorBackupCodes (securitySettings u) with
  | Some codes => length codes
  | None => 0
  end.

(** One request to the router: the route and what it reads from [req]. *)
Inductive Request : Type :=
| Login (req_email req_password : string)
| Setup (req_user : string) (seed : nat)
| Verify (req_user req_token : string)
| Validate (req_email req_token : string)
| Disable (req_user req_token : string)
| Backup (req_email req_backupCode : string).

Section Routes.

(** [user.comparePassword(candidate)], a method of the [User] model. *)
Variable comparePassword : User -> string -> bool.
(** [jwt.sign({ userId }, JWT_SECRET, { expiresIn: '24h' })]. *)
Variable jwt_sign : string -> string.
(** [utils/twoFactorAuth]; the random helpers read their entropy from a
    seed that the caller of the route supplies. *)
Variable generateSecret : string -> nat -> GeneratedSecret.
Variable generateQRCode : string -> string.
Variable generateBackupCodes : nat -> list string.
Variable encrypt2FASecret : string -> string.
(** Decryption of a stored blob; [None] when it throws. *)
Variable decrypt_blob : string -> option string.
(** [verifyToken(token, secret)], read at the time of the request. *)
Variable verifyToken : string -> string -> bool.

(** Modelled from the spec: [decrypt2FASecret] of [utils/twoFactorAuth] is
    not among the sources.  Section 4.2 makes decryption fail on a blob
    that is malformed; the route can also pass [undefined] (no secret was
    ever stored), which is no blob at all, so the call throws.  On a
    stored blob the behaviour is left to [decrypt_blob]. *)
Definition decrypt2FASecret (blob : option string) : option string :=
  match blob with
  | None => None
  | Some b => decrypt_blob b
  end.

Definition summary (user : User) : Json :=
  JObj [("id", JStr (_id user));
        ("username", JStr (username user));
        ("email", JStr (email user));
        ("role", JStr (role user));
        ("isEmailVerified", JBool (isEmailVerified user))].

(** [router.post('/login', ..)] *)
Definition post_login (req_email req_password : string) : Route Empty_set :=
  user <- findOne req_email ;;
  match user with
  | None => respond 401 (message "Invalid credentials")
  | Some user =>
    let isMatch := comparePassword user req_password in
    if negb isMatch then respond 401 (message "Invalid credentials")
    else if twoFactorEnabled (securitySettings user) then
      respond 200 (JObj [("require2FA", JBool true);
                         ("email", JStr (email user))])
    else
      let token := jwt_sign (_id user) in
      respond 200 (JObj [("token", JStr token); ("user", summary user)])
  end.

(** [router.post('/2fa/setup', auth, ..)]; [req_user] is [req.user._id]. *)
Definition post_2fa_setup (req_user : string) (seed : nat) : Route Empty_set :=
  user <- findById req_user ;;
  match user with
  | None => respond 404 (message "User not found")
  | Some user =>
    let g := generateSecret (email user) seed in
    let secret := base32 g in
    let qrCode := generateQRCode (otpauth_url g) in
    let backupCodes := generateBackupCodes seed in
    let user :=
      with_securitySettings user
        {| twoFactorEnabled := twoFactorEnabled (securitySettings user);
           twoFactorSecret := Some (encrypt2FASecret secret);
           twoFactorBackupCodes := Some backupCodes |} in
    save user ;;
    respond 200 (JObj [("qrCode", JStr qrCode);
                       ("backupCodes", JArr (map JStr backupCodes));
                       ("secret", JStr secret)])
  end.

(** [router.post('/2fa/verify', auth, ..)] *)
Definition post_2fa_verify (req_user req_token : string) : Route Empty_set :=
  user <- findById req_user ;;
  match user with
  | None => respond 404 (message "User not found")
  | Some user =>
    secret <- attempt (decrypt2FASecret (twoFactorSecret (securitySettings user))) ;;
    let isValid := verifyToken req_token secret in
    if negb isValid then respond 400 (message "Invalid verification code")
    else
      let user :=
        with_securitySettings user
          {| twoFactorEnabled := true;
             twoFactorSecret := twoFactorSecret (securitySettings user);
             twoFactorBackupCodes := twoFactorBackupCodes (securitySettings user) |} in
      save user ;;
      respond 200 (message "2FA enabled successfully")
  end.

(** [router.post('/2fa/validate', ..)] *)
Definition post_2fa_validate (req_email req_token : string) : Route Empty_set :=
  user <- findOne req_email ;;
  match user with
  | None => respond 400 (message "Invalid request")
  | Some user =>
    if negb (twoFactorEnabled (securitySettings user)) then
      respond 400 (message "Invalid request")
    else
      secret <- attempt (decrypt2FASecret (twoFactorSecret (securitySettings user))) ;;
      let isValid := verifyToken req_token secret in
      if negb isValid then respond 400 (message "Invalid verification code")
      else
        let jwtToken := jwt_sign (_id user) in
        respond 200 (JObj [("token", JStr jwtToken); ("user", summary user)])
  end.

(** [router.post('/2fa/disable', auth, ..)] *)
Definition post_2fa_disable (req_user req_token : string) : Route Empty_set :=
  user <- findById req_user ;;
  match user with
  | None => respond 404 (message "User not found")
  | Some user =>
    secret <- attempt (decrypt2FASecret (twoFactorSecret (securitySettings user))) ;;
    let isValid := verifyToken req_token secret in
    if negb isValid then respond 400 (message "Invalid verification code")
    else
      let user :=
        with_securitySettings user
          {| twoFactorEnabled := false;
             twoFactorSecret := None;
             twoFactorBackupCodes := None |} in
      save user ;;
      respond 200 (message "2FA disabled successfully")
  end.

(** [router.post('/2fa/backup', ..)]; [.includes] on [undefined] throws. *)
Definition post_2fa_backup (req_email req_backupCode : string) : Route Empty_set :=
  user <- findOne req_email ;;
  match user with
  | None => respond 400 (message "Invalid request")
  | Some user =>
    if negb (twoFactorEnabled (securitySettings user)) then
      respond 400 (message "Invalid request")
    else
      codes <- attempt (twoFactorBackupCodes (securitySettings user)) ;;
      let validBackupCode := existsb (String.eqb req_backupCode) codes in
      if negb validBackupCode then respond 400 (message "Invalid backup code")
      else
        let user :=
          with_securitySettings user
            {| twoFactorEnabled := twoFactorEnabled (securitySettings user);
               twoFactorSecret := twoFactorSecret (securitySettings user);
               twoFactorBackupCodes :=
                 Some (filter (fun code => negb (String.eqb code req_backupCode)) codes) |} in
        save user ;;
        let jwtToken := jwt_sign (_id user) in
        respond 200 (JObj [("token", JStr jwtToken); ("user", summary user)])
  end.

(** The router: dispatch, run the route inside its [try]/[catch]. *)
Definition serve (req : Request) : Db -> Db * Response :=
  handle
    match req with
    | Login e p => post_login e p
    | Setup i seed => post_2fa_setup i seed
    | Verify i t => post_2fa_verify i t
    | Validate e t => post_2fa_validate e t
    | Disable i t => post_2fa_disable i t
    | Backup e c => post_2fa_backup e c
    end.

End Routes.

(** ** The TOTP verifier *)

Module Totp.

Local Open Scope Z_scope.

Definition stepSeconds : Z := 30.

(** [floor(atTime / stepSeconds)] *)
Definition counter (atTime : Z) : Z := atTime / stepSeconds.

Section Verifier.

(** The keyed one-way function over the secret and the counter. *)
Variable code_of : string -> Z -> string.

(** The code an authenticator shows at time [t]. *)
Definition code_at (secret : string) (t : Z) : string :=
  code_of secret (counter t).

(** Modelled from the spec: [verifyToken] of [utils/twoFactorAuth] is not
    among the sources.  Section 4.4: compute the counter of [atTime],
    derive the expected code for the current counter and for the
    immediately adjacent counters (one step back, one step ahead), and
    accept when the submitted code matches one of the three. *)
Definition verify (submittedCode secret : string) (atTime : Z) : bool :=
  let c := counter atTime in
  existsb (fun k => String.eqb submittedCode (code_of secret k))
          [c - 1; c; c + 1].

End Verifier.

End Totp.

(** ** The standard keyed function: HOTP over HMAC-SHA-1

    The authenticator apps the secret is provisioned to, and the TOTP
    standard the spec refers to, derive the code as RFC 4226's truncation of
    HMAC-SHA-1 over the 8-byte counter, keyed with the base-32 decoding of
    the secret, reduced to six decimal digits.  Bytes and 32-bit words are
    [Z] with the wrap-around written out. *)

Module Hotp.

Local Open Scope Z_scope.

Definition w32 (x : Z) : Z := x mod 2 ^ 32.

Definition rotl (n x : Z) : Z :=
  w32 (Z.lor (Z.shiftl x n) (Z.shiftr x (32 - n))).

(** Big-endian bytes of [x], [n] of them. *)
Fixpoint be_bytes (n : nat) (x : Z) : list Z :=
  match n with
  | O => []
  | S n' => be_bytes n' (x / 256) ++ [x mod 256]
  end.

Definition be_word (bs : list Z) : Z :=
  fold_left (fun acc b => acc * 256 + b) bs 0.

(** Message padding: [0x80], zeros up to 56 mod 64, the bit length. *)
Definition pad (msg : list Z) : list Z :=
  let len := Z.of_nat (length msg) in
  let zeros := Z.to_nat ((55 - len) mod 64) in
  msg ++ [128] ++ repeat 0 zeros ++ be_bytes 8 (8 * len).

Fixpoint chunks (fuel : nat) (size : nat) (l : list Z) : list (list Z) :=
  match fuel with
  | O => []
  | S fuel' =>
    match l with
    | [] => []
    | _ => firstn size l :: chunks fuel' size (skipn size l)
    end
  end.

Definition words_of_block (block : list Z) : list Z :=
  map be_word (chunks 16 4 block).

(** The message schedule, newest word first: [w] holds [W(t-1) .. W(0)]. *)
Fixpoint schedule (n : nat) (w : list Z) : list Z :=
  match n with
  | O => w
  | S n' =>
    let x := Z.lxor (Z.lxor (nth 2 w 0) (nth 7 w 0))
                    (Z.lxor (nth 13 w 0) (nth 15 w 0)) in
    schedule n' (rotl 1 x :: w)
  end.

Definition f_round (t : Z) (b c d : Z) : Z :=
  if t <? 20 then Z.lor (Z.land b c) (Z.land (Z.lxor b (2 ^ 32 - 1)) d)
  else if t <? 40 then Z.lxor (Z.lxor b c) d
  else if t <? 60 then Z.lor (Z.lor (Z.land b c) (Z.land b d)) (Z.land c d)
  else Z.lxor (Z.lxor b c) d.

Definition k_round (t : Z) : Z :=
  if t <? 20 then 1518500249       (* 0x5A827999 *)
  else if t <? 40 then 1859775393  (* 0x6ED9EBA1 *)
  else if t <? 60 then 2400959708  (* 0x8F1BBCDC *)
  else 3395469782.                 (* 0xCA62C1D6 *)

Definition state5 : Type := (Z * Z * Z * Z * Z)%type.

Definition round (st : state5 * Z) (wt : Z) : state5 * Z :=
  let '((a, b, c, d, e), t) := st in
  let tmp := w32 (rotl 5 a + f_round t b c d + e + k_round t + wt) in
  ((tmp, a, rotl 30 b, c, d), t + 1).

Definition compress (h : state5) (block : list Z) : state5 :=
  let w := rev (schedule 64 (rev (words_of_block block))) in
  let '(h0, h1, h2, h3, h4) := h in
  let '((a, b, c, d, e), _) := fold_left round w (h, 0) in
  (w32 (h0 + a), w32 (h1 + b), w32 (h2 + c), w32 (h3 + d), w32 (h4 + e)).

Definition sha1_init : state5 :=
  (1732584193, 4023233417, 2562383102, 271733878, 3285377520).

Definition sha1 (msg : list Z) : list Z :=
  let padded := pad msg in
  let '(h0, h1, h2, h3, h4) :=
    fold_left compress (chunks (length padded) 64 padded) sha1_init in
  be_bytes 4 h0 ++ be_bytes 4 h1 ++ be_bytes 4 h2 ++ be_bytes 4 h3
    ++ be_bytes 4 h4.

Definition hmac_sha1 (key msg : list Z) : list Z :=
  let key := if (64 <? Z.of_nat (length key)) then sha1 key else key in
  let key := key ++ repeat 0 (64 - length key) in
  let ipad := map (Z.lxor 54) key in
  let opad := map (Z.lxor 92) key in
  sha1 (opad ++ sha1 (ipad ++ msg)).

(** RFC 4226, dynamic truncation to a 31-bit number. *)
Definition truncate (mac : list Z) : Z :=
  let offset := Z.to_nat (Z.land (nth 19 mac 0) 15) in
  be_word [Z.land (nth offset mac 0) 127; nth (offset + 1) mac 0;
           nth (offset + 2) mac 0; nth (offset + 3) mac 0].

Definition digit (d : Z) : string :=
  String (Ascii.ascii_of_nat (48 + Z.to_nat d)) EmptyString.

(** [x] in decimal, left-padded with zeros to [n] digits. *)
Fixpoint decimal (n : nat) (x : Z) : string :=
  match n with
  | O => EmptyString
  | S n' => (decimal n' (x / 10) ++ digit (x mod 10))%string
  end.

Definition hotp (key : list Z) (counter : Z) : string :=
  decimal 6 (truncate (hmac_sha1 key (be_bytes 8 (counter mod 2 ^ 64))) mod 10 ^ 6).

(** Base-32 (RFC 4648 alphabet); other characters carry no bits. *)
Definition base32_value (c : Ascii.ascii) : option Z :=
  let n := Z.of_nat (Ascii.nat_of_ascii c) in
  if (65 <=? n) && (n <=? 90) then Some (n - 65)
  else if (50 <=? n) && (n <=? 55) then Some (n - 24)
  else None.

Fixpoint base32_bits (s : string) (acc nbits : Z) : list Z :=
  match s with
  | EmptyString => []
  | String c rest =>
    match base32_value c with
    | None => base32_bits rest acc nbits
    | Some v =>
      let acc := acc * 32 + v in
      let nbits := nbits + 5 in
      if 8 <=? nbits then
        (acc / 2 ^ (nbits - 8)) :: base32_bits rest (acc mod 2 ^ (nbits - 8)) (nbits - 8)
      else base32_bits rest acc nbits
    end
  end.

Definition base32_decode (s : string) : list Z := base32_bits s 0 0.

(** The code for a base-32 secret and a counter. *)
Definition code_of (secret : string) (counter : Z) : string :=
  hotp (base32_decode secret) counter.

Definition bytes_of_string (s : string) : list Z :=
  map (fun c => Z.of_nat (Ascii.nat_of_ascii c)) (list_ascii_of_string s).

End Hotp.

(** ** A concrete deployment

    Simple stand-ins for the collaborators, with the verifier of [Totp] over
    the standard code function read at a fixed clock, and a small store. *)

Module Demo.

Definition comparePassword (u : User) (candidate : string) : bool :=
  String.eqb (password u) candidate.

Definition jwt_sign (userId : string) : string := "jwt." ++ userId.

Definition generateSecret (label : string) (seed : nat) : GeneratedSecret :=
  {| base32 := "GEZDGNBVGY3TQOJQGEZDGNBVGY3TQOJQ";
     otpauth_url := "otpauth://totp/" ++ label |}.

Definition generateQRCode (url : string) : string := "qr:" ++ url.

Definition generateBackupCodes (seed : nat) : list string :=
  ["a1b2c3d4"; "e5f6a7b8"; "0c1d2e3f"; "4a5b6c7d";
   "8e9f0a1b"; "2c3d4e5f"; "6a7b8c9d"; "0e1f2a3b"].

Definition encrypt2FASecret (secret : string) : string := "enc:" ++ secret.

Definition decrypt_blob (blob : string) : option string :=
  if String.prefix "enc:" blob
  then Some (String.substring 4 (String.length blob - 4) blob)
  else None.

(** The server clock, seconds since the epoch. *)
Definition now : Z := 1751695800.

Definition verifyToken (token secret : string) : bool :=
  Totp.verify Hotp.code_of token secret now.

Definition secret0 : string := "JBSWY3DPEHPK3PXP".

(** alice has 2FA enabled, bob has run setup only, carol never did. *)
Definition alice : User :=
  {| _id := "u1"; username := "alice"; email := "alice@example.com";
     password := "alice-pw"; role := "user"; isEmailVerified := true;
     securitySettings :=
       {| twoFactorEnabled := true;
          twoFactorSecret := Some (encrypt2FASecret secret0);
          twoFactorBackupCodes := Some ["11111111"; "22222222"; "33333333"] |} |}.

Definition bob : User :=
  {| _id := "u2"; username := "bob"; email := "bob@example.com";
     password := "bob-pw"; role := "user"; isEmailVerified := true;
     securitySettings :=
       {| twoFactorEnabled := false;
          twoFactorSecret := Some (encrypt2FASecret secret0);
          twoFactorBackupCodes := Some ["44444444"] |} |}.

Definition carol : User :=
  {| _id := "u3"; username := "carol"; email := "carol@example.com";
     password := "carol-pw"; role := "user"; isEmailVerified := false;
     securitySettings :=
       {| twoFactorEnabled := false;
          twoFactorSecret := None;
          twoFactorBackupCodes := None |} |}.

Definition db : Db := [alice; bob; carol].

Definition serve : Request -> Db -> Db * Response :=
  serve comparePassword jwt_sign generateSecret generateQRCode
        generateBackupCodes encrypt2FASecret decrypt_blob verifyToken.

End Demo.

(** ** The account routes: registration, email verification, passwords

    The remaining routes of the router read and write more of the user
    document than the 2FA routes do, and they send mail.  A stored document
    is the [User] part above together with the token and profile fields;
    a route runs over the documents and the outbox of the mail transport. *)

Module Account.

Local Open Scope Z_scope.

Record Profile : Type := {
  firstName : option string;
  lastName : option string;
  bio : option string;
  otherFields : list (string * Json)
}.

Record Account : Type := {
  core : User;
  emailVerificationToken : option string;
  emailVerificationExpires : option Z;
  passwordResetToken : option string;
  passwordResetExpires : option Z;
  profile : Profile
}.

Record Mail : Type := {
  from : string;
  to : string;
  subject : string;
  html : string
}.

Record World : Type := { users : list Account; outbox : list Mail }.

Definition with_core (a : Account) (u : User) : Account :=
  {| core := u;
     emailVerificationToken := emailVerificationToken a;
     emailVerificationExpires := emailVerificationExpires a;
     passwordResetToken := passwordResetToken a;
     passwordResetExpires := passwordResetExpires a;
     profile := profile a |}.

Definition with_password (u : User) (p : string) : User :=
  {| _id := _id u; username := username u; email := email u;
     password := p; role := role u;
     isEmailVerified := isEmailVerified u;
     securitySettings := securitySettings u |}.

Definition with_isEmailVerified (u : User) (b : bool) : User :=
  {| _id := _id u; username := username u; email := email u;
     password := password u; role := role u;
     isEmailVerified := b;
     securitySettings := securitySettings u |}.

(** The route monad over documents and outbox. *)
Definition Act (A : Type) : Type := World -> World * Flow A.

Definition ret {A} (a : A) : Act A := fun w => (w, Next a).

Definition bind {A B} (m : Act A) (k : A -> Act B) : Act B :=
  fun w =>
    match m w with
    | (w', Next a) => k a w'
    | (w', Sent r) => (w', Sent r)
    | (w', Thrown) => (w', Thrown)
    end.

Declare Scope act_scope.
Delimit Scope act_scope with act.
Notation "x <- m ;; k" := (bind m (fun x => k))
  (at level 61, m at next level, right associativity) : act_scope.
Notation "m ;; k" := (bind m (fun _ => k))
  (at level 61, right associativity) : act_scope.
Local Open Scope act_scope.

Definition respond {A} (code : nat) (body : Json) : Act A :=
  fun w => (w, Sent {| status := code; json := body |}).

(** [User.findOne(query)]: the first document that matches. *)
Definition findOne (matches : Account -> bool) : Act (option Account) :=
  fun w => (w, Next (find matches (users w))).

Definition hasId (i : string) (a : Account) : bool :=
  String.eqb (_id (core a)) i.

Definition hasEmail (e : string) (a : Account) : bool :=
  String.eqb (email (core a)) e.

(** [{ $or: [{ email }, { username }] }] *)
Definition hasEmailOrUsername (e n : string) (a : Account) : bool :=
  String.eqb (email (core a)) e || String.eqb (username (core a)) n.

(** [{ field: token, expires: { $gt: now } }]; an undefined field matches
    neither condition. *)
Definition liveToken (stored : option string) (expires : option Z)
    (token : string) (now : Z) : bool :=
  match stored, expires with
  | Some t, Some x => String.eqb t token && (now <? x)
  | _, _ => false
  end.

Definition hasVerificationToken (token : string) (now : Z) (a : Account) : bool :=
  liveToken (emailVerificationToken a) (emailVerificationExpires a) token now.

Definition hasResetToken (token : string) (now : Z) (a : Account) : bool :=
  liveToken (passwordResetToken a) (passwordResetExpires a) token now.

Definition replace (a : Account) (l : list Account) : list Account :=
  map (fun b => if String.eqb (_id (core b)) (_id (core a)) then a else b) l.

(** [user.save()] of a document read from the store. *)
Definition save (a : Account) : Act unit :=
  fun w => ({| users := replace a (users w); outbox := outbox w |}, Next tt).

(** [user.save()] of a document made with [new User(..)]. *)
Definition insert (a : Account) : Act unit :=
  fun w => ({| users := users w ++ [a]; outbox := outbox w |}, Next tt).

Definition handle (body : Act Empty_set) (w : World) : World * Response :=
  match body w with
  | (w', Next a) => match a with end
  | (w', Sent r) => (w', r)
  | (w', Thrown) => (w', {| status := 500; json := message "Server error" |})
  end.

Definition dq : string := String (Ascii.ascii_of_nat 34) EmptyString.

(** The two mail bodies, as the template literals spell them. *)
Definition verificationHtml (url : string) : string :=
  ("
                <h2>Welcome to TechNest Solutions!</h2>
                <p>Please verify your email address by clicking the link below:</p>
                <a href=" ++ dq ++ url ++ dq ++ ">" ++ url ++ "</a>
                <p>This link will expire in 24 hours.</p>
            ")%string.

Definition resetHtml (url : string) : string :=
  ("
                <h2>Password Reset Request</h2>
                <p>You requested to reset your password. Click the link below to proceed:</p>
                <a href=" ++ dq ++ url ++ dq ++ ">" ++ url ++ "</a>
                <p>This link will expire in 1 hour.</p>
                <p>If you didn't request this, please ignore this email.</p>
            ")%string.

Section Routes.

Variable comparePassword : User -> string -> bool.
Variable jwt_sign : string -> string.
(** express-validator: the [trim] and [normalizeEmail] sanitizers, the
    [isEmail] validator, and the entry of [errors.array()] for a failed
    field, given its path and the value the failed check saw, if any. *)
Variable trim : string -> string.
Variable normalizeEmail : string -> string.
Variable isEmail : string -> bool.
Variable errorEntry : string -> option string -> Json.
(** The [User] model, which is not part of the router: the document
    [new User(..)] starts from (schema defaults), the fresh [_id], the two
    token methods (they change the document and return the token), the
    hashing of a changed password when the document is saved, and the
    serialization [res.json(user)]. *)
Variable defaults : Account.
Variable newId : nat -> string.
Variable generateEmailVerificationToken : Account -> nat -> Z -> Account * string.
Variable generatePasswordResetToken : Account -> nat -> Z -> Account * string.
Variable hashPassword : string -> string.
Variable toJSON : Account -> Json.
(** [process.env] and the mail transport ([false]: the send is rejected). *)
Variable FRONTEND_URL : string.
Variable SMTP_FROM : string.
Variable delivers : Mail -> bool.

Definition sendMail (m : Mail) : Act unit :=
  fun w =>
    if delivers m
    then ({| users := users w; outbox := outbox w ++ [m] |}, Next tt)
    else (w, Thrown).

(** One validation chain: no entry when the check passes. *)
Definition check (ok : bool) (path value : string) : list Json :=
  if ok then [] else [errorEntry path (Some value)].

(** validator.js [isLength(str, { min })], the check behind
    express-validator's [isLength].  The length it compares is
    [str.length] less the surrogate pairs and less the variation selectors
    U+FE0E and U+FE0F: the code points of the text that are not such a
    selector.  A [string] here holds the text in UTF-8, where a code point
    starts at every byte that is not a continuation byte (0x80 to 0xBF) and
    the two selectors are the bytes EF B8 8E and EF B8 8F. *)
Definition isContinuation (c : Ascii.ascii) : bool :=
  let n := Ascii.nat_of_ascii c in ((128 <=? n) && (n <=? 191))%nat.

Fixpoint codePoints (s : string) : nat :=
  match s with
  | EmptyString => O
  | String c rest =>
    ((if isContinuation c then 0 else 1) + codePoints rest)%nat
  end.

Definition startsSelector (c : Ascii.ascii) (rest : string) : bool :=
  match rest with
  | String c1 (String c2 _) =>
    (Ascii.nat_of_ascii c =? 239)%nat
    && (Ascii.nat_of_ascii c1 =? 184)%nat
    && ((Ascii.nat_of_ascii c2 =? 142)%nat || (Ascii.nat_of_ascii c2 =? 143)%nat)
  | _ => false
  end.

Fixpoint variationSelectors (s : string) : nat :=
  match s with
  | EmptyString => O
  | String c rest =>
    ((if startsSelector c rest then 1 else 0) + variationSelectors rest)%nat
  end.

Definition validatorLength (s : string) : nat :=
  (codePoints s - variationSelectors s)%nat.

Definition isLength (min : nat) (value : string) : bool :=
  (min <=? validatorLength value)%nat.

Definition invalid {A} (errors : list Json) : Act A :=
  respond 400 (JObj [("errors", JArr errors)]).

(** [new User({ username, email, password })] *)
Definition newUser (username email password : string) (seed : nat) : Account :=
  with_core defaults
    {| _id := newId seed; username := username; email := email;
       password := password; role := role (core defaults);
       isEmailVerified := isEmailVerified (core defaults);
       securitySettings := securitySettings (core defaults) |}.

(** The stored form of a document whose password was assigned. *)
Definition hashed (a : Account) : Account :=
  with_core a (with_password (core a) (hashPassword (password (core a)))).

(** [router.post('/register', [..], ..)] *)
Definition post_register (req_username req_email req_password : string)
    (seed : nat) (now : Z) : Act Empty_set :=
  let username := trim req_username in
  let email := normalizeEmail req_email in
  let password := req_password in
  let errors :=
    check (isLength 3 username) "username" username
    ++ check (isEmail req_email) "email" req_email
    ++ check (isLength 6 password) "password" req_password in
  match errors with
  | _ :: _ => invalid errors
  | [] =>
    user <- findOne (hasEmailOrUsername email username) ;;
    match user with
    | Some _ => respond 400 (message "User already exists")
    | None =>
      let user := newUser username email password seed in
      let '(user, token) := generateEmailVerificationToken user seed now in
      insert (hashed user) ;;
      let verificationUrl := (FRONTEND_URL ++ "/verify-email/" ++ token)%string in
      sendMail {| from := SMTP_FROM; to := email;
                  subject := "Verify your email address";
                  html := verificationHtml verificationUrl |} ;;
      let jwtToken := jwt_sign (_id (core user)) in
      respond 201 (JObj [("token", JStr jwtToken); ("user", summary (core user))])
    end
  end.

(** [router.get('/verify-email/:token', ..)] *)
Definition get_verify_email (req_token : string) (now : Z) : Act Empty_set :=
  user <- findOne (hasVerificationToken req_token now) ;;
  match user with
  | None => respond 400 (message "Invalid or expired token")
  | Some user =>
    let user :=
      {| core := with_isEmailVerified (core user) true;
         emailVerificationToken := None;
         emailVerificationExpires := None;
         passwordResetToken := passwordResetToken user;
         passwordResetExpires := passwordResetExpires user;
         profile := profile user |} in
    save user ;;
    respond 200 (message "Email verified successfully")
  end.

(** [router.post('/forgot-password', [..], ..)] *)
Definition post_forgot_password (req_email : string) (seed : nat) (now : Z)
    : Act Empty_set :=
  let email := normalizeEmail req_email in
  let errors := check (isEmail req_email) "email" req_email in
  match errors with
  | _ :: _ => invalid errors
  | [] =>
    user <- findOne (hasEmail email) ;;
    match user with
    | None => respond 400 (message "User not found")
    | Some user =>
      let '(user, token) := generatePasswordResetToken user seed now in
      save user ;;
      let resetUrl := (FRONTEND_URL ++ "/reset-password/" ++ token)%string in
      sendMail {| from := SMTP_FROM; to := email;
                  subject := "Password Reset Request";
                  html := resetHtml resetUrl |} ;;
      respond 200 (message "Password reset email sent")
    end
  end.

(** [router.post('/reset-password/:token', [..], ..)] *)
Definition post_reset_password (req_token req_password : string) (now : Z)
    : Act Empty_set :=
  let errors := check (isLength 6 req_password) "password" req_password in
  match errors with
  | _ :: _ => invalid errors
  | [] =>
    user <- findOne (hasResetToken req_token now) ;;
    match user with
    | None => respond 400 (message "Invalid or expired token")
    | Some user =>
      let user :=
        {| core := with_password (core user) req_password;
           emailVerificationToken := emailVerificationToken user;
           emailVerificationExpires := emailVerificationExpires user;
           passwordResetToken := None;
           passwordResetExpires := None;
           profile := profile user |} in
      save (hashed user) ;;
      respond 200 (message "Password reset successfully")
    end
  end.

(** [router.put('/profile', [auth, ..], ..)]; the three chains only
    sanitize, so [errors] is always empty.  A field the request leaves out
    is [None]. *)
Definition put_profile (req_user : string)
    (req_firstName req_lastName req_bio : option string) : Act Empty_set :=
  let firstName := option_map trim req_firstName in
  let lastName := option_map trim req_lastName in
  let bio := option_map trim req_bio in
  user <- findOne (hasId req_user) ;;
  match user with
  | None => respond 404 (message "User not found")
  | Some user =>
    let user :=
      {| core := core user;
         emailVerificationToken := emailVerificationToken user;
         emailVerificationExpires := emailVerificationExpires user;
         passwordResetToken := passwordResetToken user;
         passwordResetExpires := passwordResetExpires user;
         profile :=
           {| firstName := firstName; lastName := lastName; bio := bio;
              otherFields := otherFields (profile user) |} |} in
    save user ;;
    respond 200 (toJSON user)
  end.

(** [router.put('/change-password', [auth, ..], ..)]; a request without
    [currentPassword] carries [None]. *)
Definition put_change_password (req_user : string)
    (req_currentPassword : option string) (req_newPassword : string)
    : Act Empty_set :=
  let errors :=
    match req_currentPassword with
    | Some _ => []
    | None => [errorEntry "currentPassword" None]
    end
    ++ check (isLength 6 req_newPassword) "newPassword" req_newPassword in
  match errors, req_currentPassword with
  | [], Some currentPassword =>
    user <- findOne (hasId req_user) ;;
    match user with
    | None => respond 404 (message "User not found")
    | Some user =>
      let isMatch := comparePassword (core user) currentPassword in
      if negb isMatch then respond 400 (message "Current password is incorrect")
      else
        let user := with_core user (with_password (core user) req_newPassword) in
        save (hashed user) ;;
        respond 200 (message "Password changed successfully")
    end
  | _, _ => invalid errors
  end.

(** One request to these routes; [now] is the clock the route reads. *)
Inductive Request : Type :=
| Register (req_username req_email req_password : string) (seed : nat)
| VerifyEmail (req_token : string)
| ForgotPassword (req_email : string) (seed : nat)
| ResetPassword (req_token req_password : string)
| PutProfile (req_user : string) (req_firstName req_lastName req_bio : option string)
| ChangePassword (req_user : string) (req_currentPassword : option string)
                 (req_newPassword : string).

Definition serve (req : Request) (now : Z) : World -> World * Response :=
  handle
    match req with
    | Register n e p seed => post_register n e p seed now
    | VerifyEmail t => get_verify_email t now
    | ForgotPassword e seed => post_forgot_password e seed now
    | ResetPassword t p => post_reset_password t p now
    | PutProfile i f l b => put_profile i f l b
    | ChangePassword i c n => put_change_password i c n
    end.

End Routes.

End Account.

(** A concrete deployment of the account routes. *)

Module AccountDemo.

Local Open Scope Z_scope.

Definition comparePassword (u : User) (candidate : string) : bool :=
  String.eqb (password u) ("h:" ++ candidate).

Definition jwt_sign (userId : string) : string := "jwt." ++ userId.

Fixpoint dropSpaces (s : string) : string :=
  match s with
  | String c rest =>
    if Ascii.eqb c (Ascii.ascii_of_nat 32) then dropSpaces rest else s
  | EmptyString => s
  end.

Definition reverse (s : string) : string :=
  string_of_list_ascii (rev (list_ascii_of_string s)).

Definition trim (s : string) : string :=
  reverse (dropSpaces (reverse (dropSpaces s))).

Definition normalizeEmail (e : string) : string := e.

Definition isEmail (e : string) : bool :=
  existsb (Ascii.eqb (Ascii.ascii_of_nat 64)) (list_ascii_of_string e).

Definition errorEntry (path : string) (value : option string) : Json :=
  JObj [("msg", JStr "Invalid value"); ("path", JStr path)].

Definition noProfile : Account.Profile :=
  {| Account.firstName := None; Account.lastName := None;
     Account.bio := None; Account.otherFields := [] |}.

Definition defaults : Account.Account :=
  {| Account.core :=
       {| _id := ""; username := ""; email := ""; password := "";
          role := "user"; isEmailVerified := false;
          securitySettings :=
            {| twoFactorEnabled := false; twoFactorSecret := None;
               twoFactorBackupCodes := None |} |};
     Account.emailVerificationToken := None;
     Account.emailVerificationExpires := None;
     Account.passwordResetToken := None;
     Account.passwordResetExpires := None;
     Account.profile := noProfile |}.

Definition newId (seed : nat) : string :=
  "id" ++ Hotp.decimal 4 (Z.of_nat seed).

Definition generateEmailVerificationToken (a : Account.Account) (seed : nat)
    (now : Z) : Account.Account * string :=
  let token := ("ev" ++ Hotp.decimal 4 (Z.of_nat seed))%string in
  ({| Account.core := Account.core a;
      Account.emailVerificationToken := Some token;
      Account.emailVerificationExpires := Some (now + 86400000);
      Account.passwordResetToken := Account.passwordResetToken a;
      Account.passwordResetExpires := Account.passwordResetExpires a;
      Account.profile := Account.profile a |}, token).

Definition generatePasswordResetToken (a : Account.Account) (seed : nat)
    (now : Z) : Account.Account * string :=
  let token := ("pr" ++ Hotp.decimal 4 (Z.of_nat seed))%string in
  ({| Account.core := Account.core a;
      Account.emailVerificationToken := Account.emailVerificationToken a;
      Account.emailVerificationExpires := Account.emailVerificationExpires a;
      Account.passwordResetToken := Some token;
      Account.passwordResetExpires := Some (now + 3600000);
      Account.profile := Account.profile a |}, token).

Definition hashPassword (p : string) : string := "h:" ++ p.

Definition toJSON (a : Account.Account) : Json := summary (Account.core a).

Definition FRONTEND_URL : string := "https://technest.example".
Definition SMTP_FROM : string := "no-reply@technest.example".

Definition delivers (m : Account.Mail) : bool := true.
Definition bounces (m : Account.Mail) : bool := false.

(** dave registered a moment ago and asked for a password reset; erin
    verified her email long ago and has 2FA enabled. *)
Definition dave : Account.Account :=
  {| Account.core :=
       {| _id := "id0001"; username := "dave"; email := "dave@example.com";
          password := "h:dave-pw"; role := "user"; isEmailVerified := false;
          securitySettings :=
            {| twoFactorEnabled := false; twoFactorSecret := None;
               twoFactorBackupCodes := None |} |};
     Account.emailVerificationToken := Some "ev0001";
     Account.emailVerificationExpires := Some 2000;
     Account.passwordResetToken := Some "pr0001";
     Account.passwordResetExpires := Some 1500;
     Account.profile :=
       {| Account.firstName := Some "Dave"; Account.lastName := Some "Doe";
          Account.bio := Some "hello";
          Account.otherFields := [("avatar", JStr "dave.png")] |} |}.

Definition erin : Account.Account :=
  {| Account.core :=
       {| _id := "id0002"; username := "erin"; email := "erin@example.com";
          password := "h:erin-pw"; role := "admin"; isEmailVerified := true;
          securitySettings :=
            {| twoFactorEnabled := true;
               twoFactorSecret := Some "enc:JBSWY3DPEHPK3PXP";
               twoFactorBackupCodes := Some ["11111111"] |} |};
     Account.emailVerificationToken := None;
     Account.emailVerificationExpires := None;
     Account.passwordResetToken := Some "pr0002";
     Account.passwordResetExpires := Some 3000;
     Account.profile := noProfile |}.

Definition world : Account.World :=
  {| Account.users := [dave; erin]; Account.outbox := [] |}.

Definition serve : Account.Request -> Z -> Account.World -> Account.World * Response :=
  Account.serve comparePassword jwt_sign trim normalizeEmail isEmail errorEntry
                defaults newId generateEmailVerificationToken
                generatePasswordResetToken hashPassword toJSON
                FRONTEND_URL SMTP_FROM delivers.

Definition serve_bouncing : Account.Request -> Z -> Account.World -> Account.World * Response :=
  Account.serve comparePassword jwt_sign trim normalizeEmail isEmail errorEntry
                defaults newId generateEmailVerificationToken
                generatePasswordResetToken hashPassword toJSON
                FRONTEND_URL SMTP_FROM bounces.

End AccountDemo.

(** ** Notions used to state properties of the 2FA routes *)

(** What the 2FA routes have no business changing. *)
Definition identity (u : User) : string * string * string * string * string * bool :=
  (_id u, username u, email u, password u, role u, isEmailVerified u).

(** The settings hang together: an enabled 2FA has a stored secret, and a
    stored secret comes with a backup-code array. *)
Definition Consistent (u : User) : Prop :=
  (twoFactorEnabled (securitySettings u) = true ->
   twoFactorSecret (securitySettings u) <> None)
  /\ (twoFactorSecret (securitySettings u) <> None ->
      twoFactorBackupCodes (securitySettings u) <> None).

(** The [_id] of the document a request works on, if it finds one. *)
Definition actor (req : Request) (db : Db) : option string :=
  match req with
  | Login e _ | Validate e _ | Backup e _ => option_map _id (byEmail e db)
  | Setup i _ | Verify i _ | Disable i _ => option_map _id (byId i db)
  end.

(** ** The cart drawer's handlers

    [handleNavigate], [handleRemoveItem] and [handleUpdateQuantity] of the
    [Cart] component only call functions of the contexts they are given; a
    handler is the list of those calls, in order.  Quantities are integers;
    as JS numbers they are doubles, so their sums and differences are
    rounded to 53 significant bits.  The numbers the analytics details
    carry through non-integer floating point stay symbolic: the cart total
    at the time of the call, and the product of a quantity difference with
    [parseFloat(item.price)]. *)

Module Cart.

Local Open Scope Z_scope.

Record Item : Type := {
  id : string;
  title : string;
  price : string;
  category : string;
  quantity : Z
}.

Inductive Value : Type :=
| VNull
| VStr (s : string)
| VNum (n : Z)
| VBool (b : bool)
| VCartTotal                                   (* getCartTotal() *)
| VTimesParseFloat (factor : Z) (text : string). (* factor * parseFloat(text) *)

Inductive Call : Type :=
| trackDetailedEvent (category action : string) (label value : Value)
                     (details : list (string * Value))
| removeFromCart (itemId : string)
| updateQuantity (itemId : string) (newQuantity : Z)
| setIsCartOpen (open : bool)
| navigate (path : string).

(** A positive integer as a double: exact up to 53 bits, beyond that
    rounded to 53 significant bits, to nearest, ties to even. *)
Definition roundPositive (x : Z) : Z :=
  let e := Z.log2 x - 52 in
  if e <=? 0 then x
  else
    let unit := 2 ^ e in
    let q := x / unit in
    let r := x mod unit in
    let half := unit / 2 in
    let q' :=
      if r <? half then q
      else if half <? r then q + 1
      else if Z.even q then q else q + 1 in
    q' * unit.

Definition toDouble (x : Z) : Z :=
  if x <? 0 then - roundPositive (- x) else roundPositive x.

(** [a + b] and [a - b] on JS numbers that hold integers. *)
Definition jsAdd (a b : Z) : Z := toDouble (a + b).
Definition jsSub (a b : Z) : Z := toDouble (a - b).

Section Handlers.

(** The component's state and the cart it renders. *)
Variable isLowPowerMode : bool.
Variable cartItems : list Item.

Definition handleNavigate (path : string) : list Call :=
  [setIsCartOpen false;
   trackDetailedEvent "cart" "navigation" (VStr path) VNull
     [("cart_total", VCartTotal);
      ("items_count", VNum (Z.of_nat (length cartItems)));
      ("low_power_mode", VBool isLowPowerMode)];
   navigate path].

Definition handleRemoveItem (item : Item) : list Call :=
  [trackDetailedEvent "cart" "remove_item" (VStr (title item)) (VStr (price item))
     [("item_id", VStr (id item));
      ("item_category", VStr (category item));
      ("cart_total_before", VCartTotal);
      ("low_power_mode", VBool isLowPowerMode)];
   removeFromCart (id item)].

Definition handleUpdateQuantity (item : Item) (newQuantity : Z) : list Call :=
  if newQuantity <=? 0 then handleRemoveItem item
  else
    [trackDetailedEvent "cart" "update_quantity" (VStr (title item)) (VNum newQuantity)
       [("item_id", VStr (id item));
        ("previous_quantity", VNum (quantity item));
        ("price_impact",
         VTimesParseFloat (jsSub newQuantity (quantity item)) (price item));
        ("low_power_mode", VBool isLowPowerMode)];
     updateQuantity (id item) newQuantity].

(** The minus and the plus button of a cart line. *)
Definition onMinus (item : Item) : list Call :=
  handleUpdateQuantity item (jsSub (quantity item) 1).

Definition onPlus (item : Item) : list Call :=
  handleUpdateQuantity item (jsAdd (quantity item) 1).

(** The period of the cart-sync task, in milliseconds. *)
Definition syncInterval : Z := if isLowPowerMode then 60000 else 30000.

End Handlers.

(** Whether a call changes the cart. *)
Definition changesCart (c : Call) : bool :=
  match c with
  | removeFromCart _ | updateQuantity _ _ => true
  | _ => false
  end.

End Cart.

(** * Properties *)

(** ** The store *)

Lemma byId_id (i : string) (db : Db) (u : User) :
  byId i db = Some u -> _id u = i.
Proof.
  intros H. apply find_some in H. destruct H as [_ H].
  now apply String.eqb_eq.
Qed.

Lemma byEmail_email (e : string) (db : Db) (u : User) :
  byEmail e db = Some u -> email u = e.
Proof.
  intros H. apply find_some in H. destruct H as [_ H].
  now apply String.eqb_eq.
Qed.

Lemma byId_put_same (i : string) (db : Db) (u u' : User) :
  byId i db = Some u -> _id u' = _id u -> byId i (put u' db) = Some u'.
Proof.
  intros Hfind Hid. pose proof (byId_id _ _ _ Hfind) as Hi.
  assert (Hu' : String.eqb (_id u') i = true)
    by (apply String.eqb_eq; congruence).
  revert Hfind. unfold byId, put. induction db as [|v db IH]; simpl.
  - discriminate.
  - destruct (String.eqb (_id v) (_id u')) eqn:Hv; simpl.
    + now rewrite Hu'.
    + destruct (String.eqb (_id v) i) eqn:Hvi.
      * apply String.eqb_eq in Hvi. apply String.eqb_neq in Hv. congruence.
      * exact IH.
Qed.

Lemma byId_put_other (i : string) (db : Db) (u' : User) :
  _id u' <> i -> byId i (put u' db) = byId i db.
Proof.
  intros Hne. apply String.eqb_neq in Hne.
  unfold byId, put. induction db as [|v db IH]; simpl.
  - reflexivity.
  - destruct (String.eqb (_id v) (_id u')) eqn:Hv; simpl.
    + apply String.eqb_eq in Hv. rewrite Hv, Hne. exact IH.
    + now rewrite IH.
Qed.

Lemma byEmail_put (e : string) (db : Db) (u u' : User) :
  byEmail e db = Some u -> _id u' = _id u -> email u' = email u ->
  byEmail e (put u' db) = Some u'.
Proof.
  intros Hfind Hid Hem. pose proof (byEmail_email _ _ _ Hfind) as He.
  assert (Hu' : String.eqb (email u') e = true)
    by (apply String.eqb_eq; congruence).
  revert Hfind. unfold byEmail, put. induction db as [|v db IH]; simpl.
  - discriminate.
  - destruct (String.eqb (_id v) (_id u')) eqn:Hv; simpl.
    + now rewrite Hu'.
    + destruct (String.eqb (email v) e) eqn:Hve.
      * intros [= ->]. apply String.eqb_neq in Hv. congruence.
      * exact IH.
Qed.

Lemma put_ids (u' : User) (db : Db) : map _id (put u' db) = map _id db.
Proof.
  unfold put. induction db as [|v db IH]; simpl; [reflexivity|].
  rewrite IH. destruct (String.eqb (_id v) (_id u')) eqn:Hv; [|reflexivity].
  apply String.eqb_eq in Hv. now rewrite Hv.
Qed.

Lemma unique_id (db : Db) (a b : User) :
  NoDup (map _id db) -> In a db -> In b db -> _id a = _id b -> a = b.
Proof.
  induction db as [|v db IH]; simpl; intros Hnd Ha Hb Hab; [contradiction|].
  inversion Hnd as [|x l Hnotin Hnd']; subst.
  destruct Ha as [-> | Ha], Hb as [-> | Hb]; trivial.
  - exfalso. apply Hnotin. rewrite Hab. now apply in_map.
  - exfalso. apply Hnotin. rewrite <- Hab. now apply in_map.
  - now apply IH.
Qed.

Lemma byEmail_is_byId (e : string) (db : Db) (u v : User) :
  NoDup (map _id db) ->
  byEmail e db = Some u -> byId (_id u) db = Some v -> v = u.
Proof.
  intros Hnd He Hi.
  pose proof (byId_id _ _ _ Hi) as Hid.
  apply find_some in He. apply find_some in Hi.
  apply (unique_id db); tauto.
Qed.

(** ** Backup codes: [.includes] and [.filter] *)

Lemma includes_In (code : string) (codes : list string) :
  existsb (String.eqb code) codes = true <-> In code codes.
Proof.
  rewrite existsb_exists. split.
  - intros [x [Hin Heq]]. apply String.eqb_eq in Heq. now subst.
  - intros Hin. exists code. split; [exact Hin | apply String.eqb_refl].
Qed.

Lemma filter_drops_code (code : string) (codes : list string) :
  length (filter (fun c => negb (String.eqb c code)) codes)
    + count_occ string_dec codes code
  = length codes.
Proof.
  induction codes as [|c codes IH]; simpl; [reflexivity|].
  destruct (string_dec c code) as [->|Hne].
  - rewrite String.eqb_refl. simpl. lia.
  - apply String.eqb_neq in Hne. rewrite Hne. simpl. lia.
Qed.

Lemma filter_keeps_others (code c : string) (codes : list string) :
  c <> code ->
  count_occ string_dec (filter (fun c => negb (String.eqb c code)) codes) c
  = count_occ string_dec codes c.
Proof.
  intros Hne. induction codes as [|x codes IH]; simpl; [reflexivity|].
  destruct (String.eqb x code) eqn:Hx; simpl.
  - apply String.eqb_eq in Hx. subst x.
    destruct (string_dec code c); [congruence | exact IH].
  - destruct (string_dec x c); now rewrite IH.
Qed.

Lemma filter_removes_code (code : string) (codes : list string) :
  ~ In code (filter (fun c => negb (String.eqb c code)) codes).
Proof.
  rewrite filter_In. intros [_ H]. now rewrite String.eqb_refl in H.
Qed.

(** ** The routes *)

Section RouteFacts.

Variable comparePassword : User -> string -> bool.
Variable jwt_sign : string -> string.
Variable generateSecret : string -> nat -> GeneratedSecret.
Variable generateQRCode : string -> string.
Variable generateBackupCodes : nat -> list string.
Variable encrypt2FASecret : string -> string.
Variable decrypt_blob : string -> option string.
Variable verifyToken : string -> string -> bool.

Local Abbreviation run :=
  (serve comparePassword jwt_sign generateSecret generateQRCode
         generateBackupCodes encrypt2FASecret decrypt_blob verifyToken).

Local Abbreviation session u :=
  (JObj [("token", JStr (jwt_sign (_id u))); ("user", summary u)]).

Local Abbreviation reply code text :=
  {| status := code; json := message text |}.

Ltac route :=
  cbv [serve handle post_login post_2fa_setup post_2fa_verify
       post_2fa_validate post_2fa_disable post_2fa_backup bind findOne
       findById save respond attempt ret throw decrypt2FASecret].

(** C3: a login with a matching email and the correct password has two
    outcomes only.  With [twoFactorEnabled] the body is
    [{ require2FA: true, email }] and has no [token]; without it the body
    carries the session token.  The store is not touched. *)
Theorem login_forks_on_twoFactorEnabled
    (db : Db) (e pw : string) (u : User) :
  byEmail e db = Some u ->
  comparePassword u pw = true ->
  (twoFactorEnabled (securitySettings u) = true ->
     run (Login e pw) db
     = (db, {| status := 200;
               json := JObj [("require2FA", JBool true); ("email", JStr e)] |})
     /\ field "token" (snd (run (Login e pw) db)) = None)
  /\
  (twoFactorEnabled (securitySettings u) = false ->
     run (Login e pw) db = (db, {| status := 200; json := session u |})
     /\ field "token" (snd (run (Login e pw) db))
        = Some (JStr (jwt_sign (_id u)))).
Proof.
  intros Hfind Hpw. pose proof (byEmail_email _ _ _ Hfind) as He.
  split; intros H2fa; route; rewrite Hfind, Hpw, H2fa; simpl;
    rewrite ?He; split; reflexivity.
Qed.

(** C8: a login naming an email with no user record and a login naming an
    existing user with a wrong password get the same response, status 401
    with message 'Invalid credentials'. *)
Theorem login_hides_account_existence
    (db : Db) (e1 pw1 e2 pw2 : string) (u : User) :
  byEmail e1 db = None ->
  byEmail e2 db = Some u ->
  comparePassword u pw2 = false ->
  run (Login e1 pw1) db = run (Login e2 pw2) db
  /\ run (Login e1 pw1) db = (db, reply 401 "Invalid credentials").
Proof.
  intros Hnone Hsome Hpw. route. rewrite Hnone, Hsome, Hpw. simpl.
  split; reflexivity.
Qed.

(** C4: for a user with 2FA enabled, a disable request whose code fails
    TOTP verification is answered 400 and leaves the store, hence
    [twoFactorEnabled], [twoFactorSecret] and [twoFactorBackupCodes] of
    the user, exactly as they were. *)
Theorem disable_rejected_changes_nothing
    (db : Db) (i tok secret : string) (u : User) :
  byId i db = Some u ->
  twoFactorEnabled (securitySettings u) = true ->
  decrypt2FASecret decrypt_blob (twoFactorSecret (securitySettings u))
    = Some secret ->
  verifyToken tok secret = false ->
  run (Disable i tok) db = (db, reply 400 "Invalid verification code")
  /\ byId i (fst (run (Disable i tok) db)) = Some u.
Proof.
  intros Hfind _ Hdec Hver.
  assert (E : run (Disable i tok) db
              = (db, reply 400 "Invalid verification code")).
  { route. rewrite Hfind. unfold decrypt2FASecret in Hdec.
    rewrite Hdec. simpl. now rewrite Hver. }
  rewrite E. split; [reflexivity | exact Hfind].
Qed.

(** C5: for a user with 2FA enabled, a disable request whose code passes
    TOTP verification is answered 200 and clears the three fields:
    [twoFactorEnabled] is false, [twoFactorSecret] and
    [twoFactorBackupCodes] are undefined. *)
Theorem disable_accepted_clears_settings
    (db : Db) (i tok secret : string) (u : User) :
  byId i db = Some u ->
  twoFactorEnabled (securitySettings u) = true ->
  decrypt2FASecret decrypt_blob (twoFactorSecret (securitySettings u))
    = Some secret ->
  verifyToken tok secret = true ->
  exists db' u',
    run (Disable i tok) db = (db', reply 200 "2FA disabled successfully")
    /\ byId i db' = Some u'
    /\ twoFactorEnabled (securitySettings u') = false
    /\ twoFactorSecret (securitySettings u') = None
    /\ twoFactorBackupCodes (securitySettings u') = None.
Proof.
  intros Hfind _ Hdec Hver.
  set (u' := with_securitySettings u
               {| twoFactorEnabled := false; twoFactorSecret := None;
                  twoFactorBackupCodes := None |}).
  exists (put u' db), u'. split; [|split].
  - route. rewrite Hfind. unfold decrypt2FASecret in Hdec.
    rewrite Hdec. simpl. now rewrite Hver.
  - now apply byId_put_same with (u := u).
  - repeat split.
Qed.

(** C6, as the route has it: verify-and-enable has one error of its own.
    With a stored secret that decrypts and a code that does not verify it
    answers 400 'Invalid verification code'.  For a missing secret it has
    no error of its own: the decryption throws, with no stored secret
    (setup never ran) as with a stored secret that does not decrypt, and
    the route's catch answers 500 'Server error', the response of every
    internal fault and a different one from the 400.  No failure sets
    [twoFactorEnabled]: the store is unchanged. *)
Theorem verify_failure_responses
    (db : Db) (i tok : string) (u : User) :
  byId i db = Some u ->
  (forall secret,
      decrypt2FASecret decrypt_blob (twoFactorSecret (securitySettings u))
        = Some secret ->
      verifyToken tok secret = false ->
      run (Verify i tok) db = (db, reply 400 "Invalid verification code"))
  /\ (decrypt2FASecret decrypt_blob (twoFactorSecret (securitySettings u))
        = None ->
      run (Verify i tok) db = (db, reply 500 "Server error"))
  /\ (twoFactorSecret (securitySettings u) = None ->
      run (Verify i tok) db = (db, reply 500 "Server error"))
  /\ reply 400 "Invalid verification code" <> reply 500 "Server error".
Proof.
  intros Hfind. split; [|split; [|split]].
  - intros secret Hdec Hver. route. rewrite Hfind.
    unfold decrypt2FASecret in Hdec. rewrite Hdec. simpl. now rewrite Hver.
  - intros Hdec. route. rewrite Hfind.
    unfold decrypt2FASecret in Hdec. now rewrite Hdec.
  - intros Hnone. route. now rewrite Hfind, Hnone.
  - discriminate.
Qed.

(** C1: for a user with 2FA enabled whose backup codes hold [code] exactly
    once, redeeming it succeeds, removes it and shrinks the set by exactly
    one; redeeming the same code again fails with 'Invalid backup code' and
    changes nothing.  Under any redemption the set never grows. *)
Theorem backup_code_redeemed_once
    (db : Db) (e code : string) (u : User) (codes : list string) :
  byEmail e db = Some u ->
  twoFactorEnabled (securitySettings u) = true ->
  twoFactorBackupCodes (securitySettings u) = Some codes ->
  count_occ string_dec codes code = 1 ->
  (exists db1 u1 codes1,
      run (Backup e code) db = (db1, {| status := 200; json := session u |})
      /\ byEmail e db1 = Some u1
      /\ twoFactorEnabled (securitySettings u1) = true
      /\ twoFactorBackupCodes (securitySettings u1) = Some codes1
      /\ ~ In code codes1
      /\ S (length codes1) = length codes
      /\ (forall c, c <> code ->
            count_occ string_dec codes1 c = count_occ string_dec codes c)
      /\ run (Backup e code) db1 = (db1, reply 400 "Invalid backup code"))
  /\ (forall db0 e0 code0 u0 u0',
        byEmail e0 db0 = Some u0 ->
        byEmail e0 (fst (run (Backup e0 code0) db0)) = Some u0' ->
        codesLeft u0' <= codesLeft u0).
Proof.
  intros Hfind H2fa Hcodes Honce. split.
  - set (codes1 := filter (fun c => negb (String.eqb c code)) codes).
    set (u1 := with_securitySettings u
                 {| twoFactorEnabled := true;
                    twoFactorSecret := twoFactorSecret (securitySettings u);
                    twoFactorBackupCodes := Some codes1 |}).
    assert (Hin : existsb (String.eqb code) codes = true).
    { apply includes_In. apply (count_occ_In string_dec). lia. }
    assert (Hfind1 : byEmail e (put u1 db) = Some u1)
      by now apply byEmail_put with (u := u).
    exists (put u1 db), u1, codes1. repeat split.
    + route. rewrite Hfind, H2fa, Hcodes. simpl. now rewrite Hin.
    + exact Hfind1.
    + apply filter_removes_code.
    + pose proof (filter_drops_code code codes) as Hlen.
      fold codes1 in Hlen. lia.
    + intros c Hc. now apply filter_keeps_others.
    + route. rewrite Hfind1. simpl.
      assert (Hout : existsb (String.eqb code) codes1 = false).
      { apply not_true_is_false. rewrite includes_In.
        apply filter_removes_code. }
      now rewrite Hout.
  - clear. intros db0 e0 code0 u0 u0' Hfind. route. rewrite Hfind.
    destruct (twoFactorEnabled (securitySettings u0)) eqn:H2fa; simpl;
      [|rewrite Hfind; now intros [= <-]].
    unfold codesLeft at 2.
    destruct (twoFactorBackupCodes (securitySettings u0)) as [codes0|] eqn:Hc;
      simpl; [|rewrite Hfind; intros [= <-]; unfold codesLeft; now rewrite Hc].
    destruct (existsb (String.eqb code0) codes0); simpl.
    + erewrite byEmail_put by (try exact Hfind; reflexivity).
      intros [= <-]. unfold codesLeft. simpl.
      pose proof (filter_drops_code code0 codes0). lia.
    + rewrite Hfind. intros [= <-]. unfold codesLeft. now rewrite Hc.
Qed.

(** C2, as the route has it: setup never writes [twoFactorEnabled].  For a
    user found in any state it answers 200 and stores the encryption of the
    fresh secret and the fresh backup codes, with [twoFactorEnabled] as it
    was before (false for a Disabled or Pending user, still true for an
    Enabled one).  Over a store with unique ids, a request after which a
    user's [twoFactorEnabled] went from false to true is a verify of that
    user answered 200. *)
Theorem setup_leaves_twoFactorEnabled_as_it_was
    (db : Db) (i : string) (seed : nat) (u : User) :
  NoDup (map _id db) ->
  byId i db = Some u ->
  (exists db' u',
      run (Setup i seed) db
      = (db', {| status := 200;
                 json := JObj [("qrCode", JStr (generateQRCode
                                  (otpauth_url (generateSecret (email u) seed))));
                               ("backupCodes",
                                JArr (map JStr (generateBackupCodes seed)));
                               ("secret",
                                JStr (base32 (generateSecret (email u) seed)))] |})
      /\ byId i db' = Some u'
      /\ twoFactorSecret (securitySettings u')
         = Some (encrypt2FASecret (base32 (generateSecret (email u) seed)))
      /\ twoFactorBackupCodes (securitySettings u')
         = Some (generateBackupCodes seed)
      /\ twoFactorEnabled (securitySettings u')
         = twoFactorEnabled (securitySettings u))
  /\ (forall req j v v',
        byId j db = Some v ->
        twoFactorEnabled (securitySettings v) = false ->
        byId j (fst (run req db)) = Some v' ->
        twoFactorEnabled (securitySettings v') = true ->
        exists tok, req = Verify j tok /\ status (snd (run req db)) = 200).
Proof.
  intros Hnd Hfind. split.
  - set (u' := with_securitySettings u
                 {| twoFactorEnabled := twoFactorEnabled (securitySettings u);
                    twoFactorSecret :=
                      Some (encrypt2FASecret (base32 (generateSecret (email u) seed)));
                    twoFactorBackupCodes := Some (generateBackupCodes seed) |}).
    exists (put u' db), u'. repeat split.
    + route. now rewrite Hfind.
    + now apply byId_put_same with (u := u).
  - clear i seed u Hfind. intros req j v v' Hv Hoff.
    assert (Hsame : forall w' : User,
               _id w' <> j -> byId j (put w' db) = Some v' ->
               twoFactorEnabled (securitySettings v') = true -> False).
    { intros w' Hne. rewrite byId_put_other by exact Hne. rewrite Hv.
      intros [= <-]. congruence. }
    assert (Hkeep : byId j db = Some v' ->
               twoFactorEnabled (securitySettings v') = true ->
               forall P : Prop, P).
    { rewrite Hv. intros [= <-]. congruence. }
    destruct req as [e p | i seed | i tok | e tok | i tok | e c]; route.
    + (* login *)
      destruct (byEmail e db) as [w|]; simpl; [|intros K1 K2; exact (Hkeep K1 K2 _)].
      destruct (negb (comparePassword w p)); simpl; [intros K1 K2; exact (Hkeep K1 K2 _)|].
      destruct (twoFactorEnabled (securitySettings w)); simpl; intros K1 K2; exact (Hkeep K1 K2 _).
    + (* setup *)
      destruct (byId i db) as [w|] eqn:Hw; simpl; [|intros K1 K2; exact (Hkeep K1 K2 _)].
      pose proof (byId_id _ _ _ Hw) as Hwi.
      destruct (string_dec i j) as [->|Hne].
      * erewrite byId_put_same by (try exact Hw; reflexivity).
        intros [= <-]. simpl. congruence.
      * intros H1 H2. exfalso. eapply Hsame; [| exact H1 | exact H2].
        simpl. congruence.
    + (* verify *)
      destruct (byId i db) as [w|] eqn:Hw; simpl; [|intros K1 K2; exact (Hkeep K1 K2 _)].
      pose proof (byId_id _ _ _ Hw) as Hwi.
      destruct (twoFactorSecret (securitySettings w)) as [blob|]; simpl;
        [|intros K1 K2; exact (Hkeep K1 K2 _)].
      destruct (decrypt_blob blob) as [secret|]; simpl; [|intros K1 K2; exact (Hkeep K1 K2 _)].
      destruct (verifyToken tok secret); simpl; [|intros K1 K2; exact (Hkeep K1 K2 _)].
      destruct (string_dec i j) as [->|Hne].
      * intros _ _. now exists tok.
      * intros H1 H2. exfalso. eapply Hsame; [| exact H1 | exact H2].
        simpl. congruence.
    + (* validate *)
      destruct (byEmail e db) as [w|]; simpl; [|intros K1 K2; exact (Hkeep K1 K2 _)].
      destruct (twoFactorEnabled (securitySettings w)); simpl;
        [|intros K1 K2; exact (Hkeep K1 K2 _)].
      destruct (twoFactorSecret (securitySettings w)) as [blob|]; simpl;
        [|intros K1 K2; exact (Hkeep K1 K2 _)].
      destruct (decrypt_blob blob) as [secret|]; simpl; [|intros K1 K2; exact (Hkeep K1 K2 _)].
      destruct (verifyToken tok secret); simpl; intros K1 K2; exact (Hkeep K1 K2 _).
    + (* disable *)
      destruct (byId i db) as [w|] eqn:Hw; simpl; [|intros K1 K2; exact (Hkeep K1 K2 _)].
      pose proof (byId_id _ _ _ Hw) as Hwi.
      destruct (twoFactorSecret (securitySettings w)) as [blob|]; simpl;
        [|intros K1 K2; exact (Hkeep K1 K2 _)].
      destruct (decrypt_blob blob) as [secret|]; simpl; [|intros K1 K2; exact (Hkeep K1 K2 _)].
      destruct (verifyToken tok secret); simpl; [|intros K1 K2; exact (Hkeep K1 K2 _)].
      destruct (string_dec i j) as [->|Hne].
      * erewrite byId_put_same by (try exact Hw; reflexivity).
        intros [= <-]. simpl. discriminate.
      * intros H1 H2. exfalso. eapply Hsame; [| exact H1 | exact H2].
        simpl. congruence.
    + (* backup *)
      destruct (byEmail e db) as [w|] eqn:Hw; simpl; [|intros K1 K2; exact (Hkeep K1 K2 _)].
      destruct (twoFactorEnabled (securitySettings w)) eqn:Hon; simpl;
        [|intros K1 K2; exact (Hkeep K1 K2 _)].
      destruct (twoFactorBackupCodes (securitySettings w)) as [codes|]; simpl;
        [|intros K1 K2; exact (Hkeep K1 K2 _)].
      destruct (existsb (String.eqb c) codes); simpl; [|intros K1 K2; exact (Hkeep K1 K2 _)].
      destruct (string_dec (_id w) j) as [Hj|Hne].
      * exfalso. subst j.
        pose proof (byEmail_is_byId _ _ _ _ Hnd Hw Hv). congruence.
      * intros H1 H2. exfalso. eapply Hsame; [| exact H1 | exact H2].
        exact Hne.
Qed.

(** C7, as the routes have it: on the validate and the backup route the
    two failures "no such user" and "2FA not enabled" get one and the same
    response, 400 'Invalid request'.  A wrong code for a user with 2FA
    enabled gets another message: 'Invalid verification code' on validate,
    'Invalid backup code' on backup.  No failure changes the store. *)
Theorem second_factor_failures_by_cause
    (db : Db) (e1 e2 x1 x2 : string) (u2 : User) :
  byEmail e1 db = None ->
  byEmail e2 db = Some u2 ->
  twoFactorEnabled (securitySettings u2) = false ->
  run (Validate e1 x1) db = (db, reply 400 "Invalid request")
  /\ run (Validate e2 x2) db = (db, reply 400 "Invalid request")
  /\ run (Backup e1 x1) db = (db, reply 400 "Invalid request")
  /\ run (Backup e2 x2) db = (db, reply 400 "Invalid request")
  /\ (forall e3 u3 tok secret,
        byEmail e3 db = Some u3 ->
        twoFactorEnabled (securitySettings u3) = true ->
        decrypt2FASecret decrypt_blob (twoFactorSecret (securitySettings u3))
          = Some secret ->
        verifyToken tok secret = false ->
        run (Validate e3 tok) db = (db, reply 400 "Invalid verification code"))
  /\ (forall e3 u3 code codes,
        byEmail e3 db = Some u3 ->
        twoFactorEnabled (securitySettings u3) = true ->
        twoFactorBackupCodes (securitySettings u3) = Some codes ->
        ~ In code codes ->
        run (Backup e3 code) db = (db, reply 400 "Invalid backup code")).
Proof.
  intros Hnone Hsome Hoff. repeat split.
  - route. now rewrite Hnone.
  - route. now rewrite Hsome, Hoff.
  - route. now rewrite Hnone.
  - route. now rewrite Hsome, Hoff.
  - intros e3 u3 tok secret Hfind Hon Hdec Hver. route.
    rewrite Hfind, Hon. unfold decrypt2FASecret in Hdec. simpl.
    rewrite Hdec. simpl. now rewrite Hver.
  - intros e3 u3 code codes Hfind Hon Hcodes Hout. route.
    rewrite Hfind, Hon, Hcodes. simpl.
    assert (H : existsb (String.eqb code) codes = false)
      by (apply not_true_is_false; now rewrite includes_In).
    now rewrite H.
Qed.

(** C10: for a user with 2FA enabled, the second factor alone opens a
    session.  The validate route reads an email and a TOTP code, the backup
    route an email and a backup code; a code that verifies, or a backup code
    still in the set, is answered with the session token.  Neither route
    consults [comparePassword] (the statement holds for every password
    check, one that accepts nothing included), and no login has to come
    first: a login leaves nothing in the store. *)
Theorem second_factor_alone_opens_session
    (db : Db) (e : string) (u : User) :
  byEmail e db = Some u ->
  twoFactorEnabled (securitySettings u) = true ->
  (forall tok secret,
      decrypt2FASecret decrypt_blob (twoFactorSecret (securitySettings u))
        = Some secret ->
      verifyToken tok secret = true ->
      run (Validate e tok) db = (db, {| status := 200; json := session u |}))
  /\ (forall code codes,
        twoFactorBackupCodes (securitySettings u) = Some codes ->
        In code codes ->
        exists db',
          run (Backup e code) db = (db', {| status := 200; json := session u |}))
  /\ (forall pw, fst (run (Login e pw) db) = db).
Proof.
  intros Hfind Hon. split; [|split].
  - intros tok secret Hdec Hver. route. rewrite Hfind, Hon.
    unfold decrypt2FASecret in Hdec. simpl. rewrite Hdec. simpl.
    now rewrite Hver.
  - intros code codes Hcodes Hin. apply includes_In in Hin.
    eexists. route. rewrite Hfind, Hon, Hcodes. simpl. rewrite Hin. simpl.
    reflexivity.
  - intros pw. route. rewrite Hfind.
    destruct (negb (comparePassword u pw)); simpl; [reflexivity|].
    now rewrite Hon.
Qed.

End RouteFacts.

(** ** The verifier's window *)

Section TotpFacts.

Local Open Scope Z_scope.

Variable code_of : string -> Z -> string.

Local Abbreviation verify := (Totp.verify code_of).
Local Abbreviation code_at := (Totp.code_at code_of).

Lemma counter_step (t : Z) :
  30 * Totp.counter t <= t < 30 * Totp.counter t + 30.
Proof.
  unfold Totp.counter, Totp.stepSeconds.
  pose proof (Z.div_mod t 30 ltac:(lia)).
  pose proof (Z.mod_pos_bound t 30 ltac:(lia)). lia.
Qed.

Lemma counter_monotone (t t' : Z) :
  t <= t' -> Totp.counter t <= Totp.counter t'.
Proof.
  intros H. unfold Totp.counter, Totp.stepSeconds.
  apply Z.div_le_mono; lia.
Qed.

Lemma counter_plus_step (t : Z) : Totp.counter (t + 30) = Totp.counter t + 1.
Proof.
  unfold Totp.counter, Totp.stepSeconds.
  replace (t + 30) with (t + 1 * 30) by lia.
  apply Z.div_add. lia.
Qed.

(** A code is accepted exactly when it is the code of the current counter
    or of one of the two adjacent ones. *)
Lemma verify_window (submitted secret : string) (t : Z) :
  verify submitted secret t = true <->
  exists k, Totp.counter t - 1 <= k <= Totp.counter t + 1
            /\ submitted = code_of secret k.
Proof.
  unfold Totp.verify. rewrite existsb_exists. split.
  - intros [k [Hin Heq]]. exists k. apply String.eqb_eq in Heq.
    simpl in Hin. split; [lia | exact Heq].
  - intros [k [Hk ->]]. exists k. split; [|apply String.eqb_refl].
    simpl. lia.
Qed.

(** C9, as the verifier has it: the code of the step containing [t] is
    accepted at [t], at [t + 29] and at [t - 29]; a code is accepted
    exactly when it is the code of the current counter or of one of the two
    adjacent ones, never of a counter further away.  At [t + 61] the step
    of [t] lies outside that window, so the code of [t] is rejected there
    exactly when it differs from the codes of the three counters then in
    the window. *)
Theorem verify_window_is_three_counters (secret : string) (t : Z) :
  verify (code_at secret t) secret t = true
  /\ verify (code_at secret t) secret (t + 29) = true
  /\ verify (code_at secret t) secret (t - 29) = true
  /\ (forall submitted t',
        verify submitted secret t' = true <->
        exists k, Totp.counter t' - 1 <= k <= Totp.counter t' + 1
                  /\ submitted = code_of secret k)
  /\ Totp.counter t < Totp.counter (t + 61) - 1
  /\ (verify (code_at secret t) secret (t + 61) = false <->
      forall k, Totp.counter (t + 61) - 1 <= k <= Totp.counter (t + 61) + 1 ->
                code_of secret k <> code_of secret (Totp.counter t)).
Proof.
  assert (Hup : Totp.counter t <= Totp.counter (t + 29) <= Totp.counter t + 1).
  { rewrite <- counter_plus_step. split; apply counter_monotone; lia. }
  assert (Hdown : Totp.counter t - 1 <= Totp.counter (t - 29) <= Totp.counter t).
  { replace (Totp.counter t - 1) with (Totp.counter (t - 30)).
    - split; apply counter_monotone; lia.
    - pose proof (counter_plus_step (t - 30)) as H.
      replace (t - 30 + 30) with t in H by lia. lia. }
  assert (Hfar : Totp.counter t + 2 <= Totp.counter (t + 61)).
  { replace (Totp.counter t + 2) with (Totp.counter (t + 30 + 30))
      by (rewrite !counter_plus_step; lia).
    apply counter_monotone. lia. }
  repeat split.
  - apply verify_window. exists (Totp.counter t). split; [lia | reflexivity].
  - apply verify_window. exists (Totp.counter t). split; [lia | reflexivity].
  - apply verify_window. exists (Totp.counter t). split; [lia | reflexivity].
  - apply verify_window.
  - apply verify_window.
  - lia.
  - intros Hrej k Hk Heq.
    assert (Hacc : verify (code_at secret t) secret (t + 61) = true).
    { apply verify_window. exists k. split; [exact Hk | now symmetry]. }
    congruence.
  - intros Hdiff. apply not_true_is_false. rewrite verify_window.
    intros [k [Hk Heq]]. apply (Hdiff k Hk). now symmetry.
Qed.

End TotpFacts.

(** ** The standard code function on the published test vectors *)

Example sha1_abc :
  Hotp.sha1 (Hotp.bytes_of_string "abc")
  = [169; 153; 62; 54; 71; 6; 129; 106; 186; 62; 37; 113; 120; 80; 194; 108;
     156; 208; 216; 157]%Z.
Proof. vm_compute. reflexivity. Qed.

(** RFC 4226, appendix D: counters 0 to 3 under the key 12345678901234567890. *)
Example hotp_rfc4226 :
  map (Hotp.hotp (Hotp.bytes_of_string "12345678901234567890")) [0; 1; 2; 3]%Z
  = ["755224"; "287082"; "359152"; "969429"].
Proof. vm_compute. reflexivity. Qed.

(** RFC 6238, appendix B: time 59, the same key in base 32. *)
Example totp_rfc6238 :
  Totp.code_at Hotp.code_of "GEZDGNBVGY3TQOJQGEZDGNBVGY3TQOJQ" 59 = "287082".
Proof. vm_compute. reflexivity. Qed.

(** ** The properties on the concrete deployment *)

Lemma Demo_ids_unique : NoDup (map _id Demo.db).
Proof.
  repeat constructor; simpl; intuition discriminate.
Qed.

Lemma backup_code_redeemed_once_witness :
  count_occ string_dec ["11111111"; "22222222"; "33333333"] "22222222" = 1
  /\ exists db1 u1 codes1,
       Demo.serve (Backup "alice@example.com" "22222222") Demo.db
       = (db1, {| status := 200;
                  json := JObj [("token", JStr "jwt.u1");
                                ("user", summary Demo.alice)] |})
       /\ byEmail "alice@example.com" db1 = Some u1
       /\ twoFactorBackupCodes (securitySettings u1) = Some codes1
       /\ ~ In "22222222" codes1
       /\ S (length codes1) = 3
       /\ Demo.serve (Backup "alice@example.com" "22222222") db1
          = (db1, {| status := 400; json := message "Invalid backup code" |}).
Proof.
  split; [reflexivity|].
  destruct (backup_code_redeemed_once
              Demo.comparePassword Demo.jwt_sign Demo.generateSecret
              Demo.generateQRCode Demo.generateBackupCodes
              Demo.encrypt2FASecret Demo.decrypt_blob Demo.verifyToken
              Demo.db "alice@example.com" "22222222" Demo.alice
              ["11111111"; "22222222"; "33333333"]
              eq_refl eq_refl eq_refl eq_refl)
    as [[db1 [u1 [codes1 [H1 [H2 [_ [H4 [H5 [H6 [_ H8]]]]]]]]]] _].
  exists db1, u1, codes1.
  exact (conj H1 (conj H2 (conj H4 (conj H5 (conj H6 H8))))).
Defined.

(** After setup on alice, who has 2FA enabled, [twoFactorEnabled] is still
    true although the stored secret is new and was never verified. *)
Lemma setup_on_enabled_user_keeps_it_enabled :
  byId "u1" Demo.db = Some Demo.alice
  /\ twoFactorEnabled (securitySettings Demo.alice) = true
  /\ exists u',
       byId "u1" (fst (Demo.serve (Setup "u1" 0) Demo.db)) = Some u'
       /\ status (snd (Demo.serve (Setup "u1" 0) Demo.db)) = 200
       /\ twoFactorSecret (securitySettings u')
          <> twoFactorSecret (securitySettings Demo.alice)
       /\ twoFactorEnabled (securitySettings u') = true.
Proof.
  split; [reflexivity | split; [reflexivity|]].
  eexists. split; [vm_compute; reflexivity|].
  repeat split. simpl. discriminate.
Qed.

Lemma setup_leaves_twoFactorEnabled_as_it_was_witness :
  NoDup (map _id Demo.db)
  /\ byId "u2" Demo.db = Some Demo.bob
  /\ exists db' u',
       fst (Demo.serve (Setup "u2" 7) Demo.db) = db'
       /\ byId "u2" db' = Some u'
       /\ twoFactorBackupCodes (securitySettings u')
          = Some (Demo.generateBackupCodes 7)
       /\ twoFactorEnabled (securitySettings u') = false.
Proof.
  split; [exact Demo_ids_unique | split; [reflexivity|]].
  destruct (setup_leaves_twoFactorEnabled_as_it_was
              Demo.comparePassword Demo.jwt_sign Demo.generateSecret
              Demo.generateQRCode Demo.generateBackupCodes
              Demo.encrypt2FASecret Demo.decrypt_blob Demo.verifyToken
              Demo.db "u2" 7%nat Demo.bob Demo_ids_unique eq_refl)
    as [[db' [u' [H1 [H2 [_ [H4 H5]]]]]] _].
  exists db', u'.
  exact (conj (f_equal fst H1) (conj H2 (conj H4 H5))).
Defined.

Lemma login_forks_on_twoFactorEnabled_witness :
  byEmail "alice@example.com" Demo.db = Some Demo.alice
  /\ Demo.comparePassword Demo.alice "alice-pw" = true
  /\ Demo.serve (Login "alice@example.com" "alice-pw") Demo.db
     = (Demo.db,
        {| status := 200;
           json := JObj [("require2FA", JBool true);
                         ("email", JStr "alice@example.com")] |})
  /\ field "token"
       (snd (Demo.serve (Login "alice@example.com" "alice-pw") Demo.db))
     = None.
Proof.
  split; [reflexivity | split; [reflexivity|]].
  exact (proj1 (login_forks_on_twoFactorEnabled
                  Demo.comparePassword Demo.jwt_sign Demo.generateSecret
                  Demo.generateQRCode Demo.generateBackupCodes
                  Demo.encrypt2FASecret Demo.decrypt_blob Demo.verifyToken
                  Demo.db "alice@example.com" "alice-pw" Demo.alice
                  eq_refl eq_refl)
               eq_refl).
Defined.

Lemma login_hides_account_existence_witness :
  byEmail "nobody@example.com" Demo.db = None
  /\ byEmail "alice@example.com" Demo.db = Some Demo.alice
  /\ Demo.comparePassword Demo.alice "guess" = false
  /\ Demo.serve (Login "nobody@example.com" "guess") Demo.db
     = Demo.serve (Login "alice@example.com" "guess") Demo.db.
Proof.
  split; [reflexivity | split; [reflexivity | split; [reflexivity|]]].
  exact (proj1 (login_hides_account_existence
                  Demo.comparePassword Demo.jwt_sign Demo.generateSecret
                  Demo.generateQRCode Demo.generateBackupCodes
                  Demo.encrypt2FASecret Demo.decrypt_blob Demo.verifyToken
                  Demo.db "nobody@example.com" "guess"
                  "alice@example.com" "guess" Demo.alice
                  eq_refl eq_refl eq_refl)).
Defined.

Lemma Demo_rejects_000000 : Demo.verifyToken "000000" Demo.secret0 = false.
Proof. vm_compute. reflexivity. Qed.

Lemma Demo_accepts_619585 : Demo.verifyToken "619585" Demo.secret0 = true.
Proof. vm_compute. reflexivity. Qed.

Lemma disable_rejected_changes_nothing_witness :
  byId "u1" Demo.db = Some Demo.alice
  /\ Demo.verifyToken "000000" Demo.secret0 = false
  /\ Demo.serve (Disable "u1" "000000") Demo.db
     = (Demo.db, {| status := 400; json := message "Invalid verification code" |})
  /\ byId "u1" (fst (Demo.serve (Disable "u1" "000000") Demo.db))
     = Some Demo.alice.
Proof.
  split; [reflexivity | split; [exact Demo_rejects_000000|]].
  exact (disable_rejected_changes_nothing
           Demo.comparePassword Demo.jwt_sign Demo.generateSecret
           Demo.generateQRCode Demo.generateBackupCodes
           Demo.encrypt2FASecret Demo.decrypt_blob Demo.verifyToken
           Demo.db "u1" "000000" Demo.secret0 Demo.alice
           eq_refl eq_refl eq_refl Demo_rejects_000000).
Defined.

Lemma disable_accepted_clears_settings_witness :
  byId "u1" Demo.db = Some Demo.alice
  /\ Demo.verifyToken "619585" Demo.secret0 = true
  /\ exists db' u',
       Demo.serve (Disable "u1" "619585") Demo.db
       = (db', {| status := 200; json := message "2FA disabled successfully" |})
       /\ byId "u1" db' = Some u'
       /\ twoFactorEnabled (securitySettings u') = false
       /\ twoFactorSecret (securitySettings u') = None
       /\ twoFactorBackupCodes (securitySettings u') = None.
Proof.
  split; [reflexivity | split; [exact Demo_accepts_619585|]].
  exact (disable_accepted_clears_settings
           Demo.comparePassword Demo.jwt_sign Demo.generateSecret
           Demo.generateQRCode Demo.generateBackupCodes
           Demo.encrypt2FASecret Demo.decrypt_blob Demo.verifyToken
           Demo.db "u1" "619585" Demo.secret0 Demo.alice
           eq_refl eq_refl eq_refl Demo_accepts_619585).
Defined.

Lemma verify_failure_responses_witness :
  byId "u2" Demo.db = Some Demo.bob
  /\ byId "u3" Demo.db = Some Demo.carol
  /\ Demo.serve (Verify "u2" "000000") Demo.db
     = (Demo.db, {| status := 400; json := message "Invalid verification code" |})
  /\ Demo.serve (Verify "u3" "000000") Demo.db
     = (Demo.db, {| status := 500; json := message "Server error" |}).
Proof.
  split; [reflexivity | split; [reflexivity | split]].
  - exact (proj1 (verify_failure_responses
                    Demo.comparePassword Demo.jwt_sign Demo.generateSecret
                    Demo.generateQRCode Demo.generateBackupCodes
                    Demo.encrypt2FASecret Demo.decrypt_blob Demo.verifyToken
                    Demo.db "u2" "000000" Demo.bob eq_refl)
                 Demo.secret0 eq_refl Demo_rejects_000000).
  - exact (proj1 (proj2 (proj2 (verify_failure_responses
                    Demo.comparePassword Demo.jwt_sign Demo.generateSecret
                    Demo.generateQRCode Demo.generateBackupCodes
                    Demo.encrypt2FASecret Demo.decrypt_blob Demo.verifyToken
                    Demo.db "u3" "000000" Demo.carol eq_refl)))
                 eq_refl).
Defined.

(** carol never ran setup.  Her verify is not answered with an error of
    its own: the response is the catch-all 500 'Server error', the very
    response a verify gets when the stored secret does not decrypt. *)
Lemma no_secret_gets_the_catch_all_error :
  twoFactorSecret (securitySettings Demo.carol) = None
  /\ snd (Demo.serve (Verify "u3" "000000") Demo.db)
     = {| status := 500; json := message "Server error" |}
  /\ Demo.decrypt_blob "garbage" = None
  /\ snd (Demo.serve (Verify "u1" "000000")
            [with_securitySettings Demo.alice
               {| twoFactorEnabled := false; twoFactorSecret := Some "garbage";
                  twoFactorBackupCodes := Some ["11111111"] |}])
     = snd (Demo.serve (Verify "u3" "000000") Demo.db).
Proof.
  repeat split.
Qed.

(** Two failing validate requests, one for an unknown email and one with a
    wrong code for alice, carry different messages. *)
Lemma validate_failures_tell_causes_apart :
  snd (Demo.serve (Validate "nobody@example.com" "000000") Demo.db)
  = {| status := 400; json := message "Invalid request" |}
  /\ snd (Demo.serve (Validate "alice@example.com" "000000") Demo.db)
     = {| status := 400; json := message "Invalid verification code" |}
  /\ field "message"
       (snd (Demo.serve (Validate "nobody@example.com" "000000") Demo.db))
     <> field "message"
          (snd (Demo.serve (Validate "alice@example.com" "000000") Demo.db)).
Proof.
  assert (H1 : snd (Demo.serve (Validate "nobody@example.com" "000000") Demo.db)
               = {| status := 400; json := message "Invalid request" |})
    by (vm_compute; reflexivity).
  assert (H2 : snd (Demo.serve (Validate "alice@example.com" "000000") Demo.db)
               = {| status := 400; json := message "Invalid verification code" |})
    by (vm_compute; reflexivity).
  rewrite H1, H2. repeat split. discriminate.
Qed.

Lemma second_factor_failures_by_cause_witness :
  byEmail "nobody@example.com" Demo.db = None
  /\ byEmail "bob@example.com" Demo.db = Some Demo.bob
  /\ twoFactorEnabled (securitySettings Demo.bob) = false
  /\ Demo.serve (Validate "nobody@example.com" "000000") Demo.db
     = Demo.serve (Validate "bob@example.com" "619585") Demo.db
  /\ Demo.serve (Backup "nobody@example.com" "44444444") Demo.db
     = Demo.serve (Backup "bob@example.com" "44444444") Demo.db.
Proof.
  split; [reflexivity | split; [reflexivity | split; [reflexivity|]]].
  destruct (second_factor_failures_by_cause
              Demo.comparePassword Demo.jwt_sign Demo.generateSecret
              Demo.generateQRCode Demo.generateBackupCodes
              Demo.encrypt2FASecret Demo.decrypt_blob Demo.verifyToken
              Demo.db "nobody@example.com" "bob@example.com"
              "000000" "619585" Demo.bob eq_refl eq_refl eq_refl)
    as [V1 [V2 _]].
  destruct (second_factor_failures_by_cause
              Demo.comparePassword Demo.jwt_sign Demo.generateSecret
              Demo.generateQRCode Demo.generateBackupCodes
              Demo.encrypt2FASecret Demo.decrypt_blob Demo.verifyToken
              Demo.db "nobody@example.com" "bob@example.com"
              "44444444" "44444444" Demo.bob eq_refl eq_refl eq_refl)
    as [_ [_ [B1 [B2 _]]]].
  split.
  - exact (eq_trans V1 (eq_sym V2)).
  - exact (eq_trans B1 (eq_sym B2)).
Defined.

Lemma second_factor_alone_opens_session_witness :
  byEmail "alice@example.com" Demo.db = Some Demo.alice
  /\ twoFactorEnabled (securitySettings Demo.alice) = true
  /\ Demo.serve (Validate "alice@example.com" "619585") Demo.db
     = (Demo.db,
        {| status := 200;
           json := JObj [("token", JStr "jwt.u1"); ("user", summary Demo.alice)] |})
  /\ exists db',
       Demo.serve (Backup "alice@example.com" "33333333") Demo.db
       = (db',
          {| status := 200;
             json := JObj [("token", JStr "jwt.u1"); ("user", summary Demo.alice)] |}).
Proof.
  split; [reflexivity | split; [reflexivity|]].
  destruct (second_factor_alone_opens_session
              Demo.comparePassword Demo.jwt_sign Demo.generateSecret
              Demo.generateQRCode Demo.generateBackupCodes
              Demo.encrypt2FASecret Demo.decrypt_blob Demo.verifyToken
              Demo.db "alice@example.com" Demo.alice eq_refl eq_refl)
    as [V [B _]].
  split.
  - exact (V "619585" Demo.secret0 eq_refl Demo_accepts_619585).
  - apply (B "33333333" ["11111111"; "22222222"; "33333333"] eq_refl).
    simpl. tauto.
Defined.

(** The code shown at 2025-07-05 06:10:00 UTC for the secret
    JBSWY3DPEHPK3PXP is 619585, and so is the code two steps later: the
    verifier still accepts it 61 seconds on. *)
Lemma totp_code_accepted_61_seconds_later :
  Totp.code_at Hotp.code_of "JBSWY3DPEHPK3PXP" 1751695800 = "619585"
  /\ Totp.verify Hotp.code_of
       (Totp.code_at Hotp.code_of "JBSWY3DPEHPK3PXP" 1751695800)
       "JBSWY3DPEHPK3PXP" (1751695800 + 61)
     = true.
Proof.
  split; vm_compute; reflexivity.
Qed.

(** * Further properties of the routes *)

(** ** More on the store *)

Lemma put_identity (db : Db) (u u' : User) :
  NoDup (map _id db) -> In u db -> identity u' = identity u ->
  map identity (put u' db) = map identity db.
Proof.
  intros Hnd Hin Hid. unfold put. rewrite map_map. apply map_ext_in.
  intros v Hv. destruct (String.eqb (_id v) (_id u')) eqn:E; [|reflexivity].
  apply String.eqb_eq in E.
  assert (Hsame : _id v = _id u).
  { rewrite E. unfold identity in Hid. congruence. }
  rewrite (unique_id db v u Hnd Hv Hin Hsame). exact Hid.
Qed.

Lemma put_Forall (P : User -> Prop) (db : Db) (u' : User) :
  Forall P db -> P u' -> Forall P (put u' db).
Proof.
  intros Hall Hu'. unfold put. apply Forall_map.
  apply Forall_impl with (P := P); [|exact Hall].
  intros v Hv. now destruct (String.eqb (_id v) (_id u')).
Qed.

Lemma byId_In (i : string) (db : Db) (u : User) : byId i db = Some u -> In u db.
Proof. intros H. now apply find_some in H. Qed.

Lemma byEmail_In (e : string) (db : Db) (u : User) :
  byEmail e db = Some u -> In u db.
Proof. intros H. now apply find_some in H. Qed.

Section RouteExtras.

Variable comparePassword : User -> string -> bool.
Variable jwt_sign : string -> string.
Variable generateSecret : string -> nat -> GeneratedSecret.
Variable generateQRCode : string -> string.
Variable generateBackupCodes : nat -> list string.
Variable encrypt2FASecret : string -> string.
Variable decrypt_blob : string -> option string.
Variable verifyToken : string -> string -> bool.

Local Abbreviation run :=
  (serve comparePassword jwt_sign generateSecret generateQRCode
         generateBackupCodes encrypt2FASecret decrypt_blob verifyToken).

Local Abbreviation session u :=
  (JObj [("token", JStr (jwt_sign (_id u))); ("user", summary u)]).

Local Abbreviation reply code text :=
  {| status := code; json := message text |}.

Ltac steps :=
  cbv [serve handle post_login post_2fa_setup post_2fa_verify
       post_2fa_validate post_2fa_disable post_2fa_backup bind findOne
       findById save respond attempt ret throw decrypt2FASecret].

Ltac branches :=
  repeat match goal with
         | |- context [byEmail ?e ?db] => destruct (byEmail e db) eqn:?; simpl
         | |- context [byId ?i ?db] => destruct (byId i db) eqn:?; simpl
         | |- context [negb ?b] => destruct b eqn:?; simpl
         | |- context [if twoFactorEnabled ?s then _ else _] =>
           destruct (twoFactorEnabled s) eqn:?; simpl
         | |- context [match twoFactorSecret ?s with _ => _ end] =>
           destruct (twoFactorSecret s) eqn:?; simpl
         | |- context [match twoFactorBackupCodes ?s with _ => _ end] =>
           destruct (twoFactorBackupCodes s) eqn:?; simpl
         | |- context [match decrypt_blob ?b with _ => _ end] =>
           destruct (decrypt_blob b) eqn:?; simpl
         end.

Ltac written u Hin :=
  right; exists u; eexists;
  split; [exact Hin |
  split; [reflexivity |
  split; [reflexivity |
  split; [reflexivity | unfold Consistent; simpl]]]].

(** The store after a request is the store before it, or the store with
    one document of it written back; the written document keeps its
    identity, belongs to the request's actor, and is consistent if the
    document read was. *)
Lemma serve_shape (req : Request) (db : Db) :
  fst (run req db) = db
  \/ exists u u',
       In u db
       /\ actor req db = Some (_id u)
       /\ fst (run req db) = put u' db
       /\ identity u' = identity u
       /\ (Consistent u -> Consistent u').
Proof.
  destruct req as [e p | i seed | i tok | e tok | i tok | e c]; steps; simpl.
  - left. branches; reflexivity.
  - destruct (byId i db) as [u|] eqn:Hu; simpl; [|now left].
    apply byId_In in Hu. written u Hu.
    intros _. split; discriminate.
  - destruct (byId i db) as [u|] eqn:Hu; simpl; [|now left].
    destruct (twoFactorSecret (securitySettings u)) as [blob|] eqn:Hb;
      simpl; [|now left].
    destruct (decrypt_blob blob) as [secret|]; simpl; [|now left].
    destruct (verifyToken tok secret); simpl; [|now left].
    apply byId_In in Hu. written u Hu.
    rewrite Hb. intros [_ H]. split; [discriminate | exact H].
  - left. branches; reflexivity.
  - destruct (byId i db) as [u|] eqn:Hu; simpl; [|now left].
    destruct (twoFactorSecret (securitySettings u)) as [blob|] eqn:Hb;
      simpl; [|now left].
    destruct (decrypt_blob blob) as [secret|]; simpl; [|now left].
    destruct (verifyToken tok secret); simpl; [|now left].
    apply byId_In in Hu. written u Hu.
    intros _. split; [discriminate | intros H; now elim H].
  - destruct (byEmail e db) as [u|] eqn:Hu; simpl; [|now left].
    destruct (twoFactorEnabled (securitySettings u)) eqn:Hon; simpl;
      [|now left].
    destruct (twoFactorBackupCodes (securitySettings u)) as [codes|];
      simpl; [|now left].
    destruct (existsb (String.eqb c) codes); simpl; [|now left].
    apply byEmail_In in Hu. written u Hu.
    intros [H _]. split; [intros _; now apply H | discriminate].
Qed.

(** X1: a request that is not answered 200 has written nothing: on every
    error path of the six routes the store is the one before the request. *)
Theorem failed_request_changes_nothing (req : Request) (db : Db) :
  status (snd (run req db)) <> 200%nat -> fst (run req db) = db.
Proof.
  destruct req as [e p | i seed | i tok | e tok | i tok | e c]; steps;
    branches; try reflexivity;
    repeat match goal with
           | |- context [if ?b then _ else _] => destruct b; simpl
           end;
    try reflexivity; intros H; now elim H.
Qed.

(** X2: login and validate never write, whatever they answer.  So the
    validate route keeps no record of the codes it accepted: the same
    request on the store it leaves gets the same answer again. *)
Theorem validate_keeps_no_record (db : Db) (e x : string) :
  fst (run (Login e x) db) = db
  /\ fst (run (Validate e x) db) = db
  /\ run (Validate e x) (fst (run (Validate e x) db)) = run (Validate e x) db.
Proof.
  assert (H : fst (run (Validate e x) db) = db).
  { steps. branches; reflexivity. }
  split; [|split; [exact H | now rewrite H]].
  steps. branches; reflexivity.
Qed.

(** X3: over a store with unique ids, no request changes the [_id],
    [username], [email], [password], [role] or [isEmailVerified] of any
    document, nor the number or order of the documents. *)
Theorem requests_keep_identities (req : Request) (db : Db) :
  NoDup (map _id db) ->
  map identity (fst (run req db)) = map identity db
  /\ NoDup (map _id (fst (run req db))).
Proof.
  intros Hnd.
  destruct (serve_shape req db) as [-> | [u [u' [Hin [_ [-> [Hid _]]]]]]].
  - now split.
  - split.
    + now apply put_identity with (u := u).
    + now rewrite put_ids.
Qed.

(** X4: the routes keep the settings consistent.  If in every document an
    enabled 2FA has a stored secret and a stored secret comes with backup
    codes, the same holds after any request. *)
Theorem requests_keep_consistency (req : Request) (db : Db) :
  Forall Consistent db -> Forall Consistent (fst (run req db)).
Proof.
  intros Hall.
  destruct (serve_shape req db) as [-> | [u [u' [Hin [_ [-> [_ Hc]]]]]]].
  - exact Hall.
  - apply put_Forall; [exact Hall|]. apply Hc.
    rewrite Forall_forall in Hall. now apply Hall.
Qed.

(** X5: on a consistent store the backup route finds a backup-code array
    for every account with 2FA enabled, so its [.includes] is never called
    on [undefined]: a code that is not in the array is answered 400
    'Invalid backup code' with the store unchanged, a code that is in it
    with the session. *)
Theorem backup_finds_its_codes (db : Db) (e code : string) (u : User) :
  Forall Consistent db ->
  byEmail e db = Some u ->
  twoFactorEnabled (securitySettings u) = true ->
  exists codes,
    twoFactorBackupCodes (securitySettings u) = Some codes
    /\ (~ In code codes ->
        run (Backup e code) db = (db, reply 400 "Invalid backup code"))
    /\ (In code codes ->
        snd (run (Backup e code) db) = {| status := 200; json := session u |}).
Proof.
  intros Hall Hfind Hon. rewrite Forall_forall in Hall.
  destruct (Hall u (byEmail_In _ _ _ Hfind)) as [H1 H2].
  destruct (twoFactorBackupCodes (securitySettings u)) as [codes|] eqn:Hc;
    [|now elim (H2 (H1 Hon))].
  exists codes. split; [reflexivity|]. split.
  - intros Hout. steps. rewrite Hfind, Hon, Hc. simpl.
    assert (H : existsb (String.eqb code) codes = false)
      by (apply not_true_is_false; now rewrite includes_In).
    now rewrite H.
  - intros Hin. apply includes_In in Hin. steps.
    rewrite Hfind, Hon, Hc. simpl. now rewrite Hin.
Qed.

(** X6: no request changes a document other than the one it works on: the
    document found under any other [_id] is the same before and after. *)
Theorem requests_touch_their_actor_only (req : Request) (db : Db) (j : string) :
  actor req db <> Some j ->
  byId j (fst (run req db)) = byId j db.
Proof.
  intros Hj.
  destruct (serve_shape req db) as [-> | [u [u' [_ [Hact [-> [Hid _]]]]]]].
  - reflexivity.
  - apply byId_put_other. intros E. apply Hj. rewrite Hact.
    unfold identity in Hid. congruence.
Qed.

(** X7: enrollment end to end.  If the codec gives the fresh secret back,
    then setup, followed by verify with a code of the secret that setup
    returned, enables 2FA: the same code then validates into a session, and
    a login with the right password is answered with the 2FA challenge. *)
Theorem enrollment_end_to_end
    (db : Db) (i tok : string) (seed : nat) (u : User) :
  byId i db = Some u ->
  byEmail (email u) db = Some u ->
  decrypt_blob (encrypt2FASecret (base32 (generateSecret (email u) seed)))
    = Some (base32 (generateSecret (email u) seed)) ->
  verifyToken tok (base32 (generateSecret (email u) seed)) = true ->
  exists db1 r1 db2 u2,
    run (Setup i seed) db = (db1, r1)
    /\ field "secret" r1 = Some (JStr (base32 (generateSecret (email u) seed)))
    /\ run (Verify i tok) db1 = (db2, reply 200 "2FA enabled successfully")
    /\ byEmail (email u) db2 = Some u2
    /\ twoFactorEnabled (securitySettings u2) = true
    /\ run (Validate (email u) tok) db2
       = (db2, {| status := 200; json := session u |})
    /\ (forall pw,
          comparePassword u2 pw = true ->
          run (Login (email u) pw) db2
          = (db2, {| status := 200;
                     json := JObj [("require2FA", JBool true);
                                   ("email", JStr (email u))] |})).
Proof.
  intros Hid Hem Hcodec Htok.
  set (s := base32 (generateSecret (email u) seed)) in *.
  set (u1 := with_securitySettings u
               {| twoFactorEnabled := twoFactorEnabled (securitySettings u);
                  twoFactorSecret := Some (encrypt2FASecret s);
                  twoFactorBackupCodes := Some (generateBackupCodes seed) |}).
  set (u2 := with_securitySettings u1
               {| twoFactorEnabled := true;
                  twoFactorSecret := Some (encrypt2FASecret s);
                  twoFactorBackupCodes := Some (generateBackupCodes seed) |}).
  assert (Hid1 : byId i (put u1 db) = Some u1)
    by now apply byId_put_same with (u := u).
  assert (Hem1 : byEmail (email u) (put u1 db) = Some u1)
    by now apply byEmail_put with (u := u).
  assert (Hem2 : byEmail (email u) (put u2 (put u1 db)) = Some u2)
    by now apply byEmail_put with (u := u1).
  exists (put u1 db), (snd (run (Setup i seed) db)), (put u2 (put u1 db)), u2.
  split; [|split; [|split; [|split; [|split; [|split]]]]].
  - steps. now rewrite Hid.
  - steps. now rewrite Hid.
  - steps. rewrite Hid1. simpl. rewrite Hcodec. simpl. now rewrite Htok.
  - exact Hem2.
  - reflexivity.
  - steps. rewrite Hem2. simpl. rewrite Hcodec. simpl. now rewrite Htok.
  - intros pw Hpw. steps. rewrite Hem2, Hpw. reflexivity.
Qed.

(** X8: setup on an account that has 2FA enabled swaps the second factor
    at once, without a verify.  On the store it leaves, a TOTP code is
    accepted exactly when it verifies against the new secret, and a backup
    code exactly when it is one of the new codes; the old secret and the
    old backup codes no longer count. *)
Theorem setup_on_enabled_account_swaps_factor
    (db : Db) (i x : string) (seed : nat) (u : User) :
  byId i db = Some u ->
  byEmail (email u) db = Some u ->
  twoFactorEnabled (securitySettings u) = true ->
  decrypt_blob (encrypt2FASecret (base32 (generateSecret (email u) seed)))
    = Some (base32 (generateSecret (email u) seed)) ->
  (status (snd (run (Validate (email u) x) (fst (run (Setup i seed) db))))
     = 200%nat
   <-> verifyToken x (base32 (generateSecret (email u) seed)) = true)
  /\ (status (snd (run (Backup (email u) x) (fst (run (Setup i seed) db))))
        = 200%nat
      <-> In x (generateBackupCodes seed)).
Proof.
  intros Hid Hem Hon Hcodec.
  set (s := base32 (generateSecret (email u) seed)) in *.
  set (u1 := with_securitySettings u
               {| twoFactorEnabled := twoFactorEnabled (securitySettings u);
                  twoFactorSecret := Some (encrypt2FASecret s);
                  twoFactorBackupCodes := Some (generateBackupCodes seed) |}).
  assert (Hdb : fst (run (Setup i seed) db) = put u1 db)
    by (steps; now rewrite Hid).
  assert (Hem1 : byEmail (email u) (put u1 db) = Some u1)
    by now apply byEmail_put with (u := u).
  rewrite Hdb. split.
  - steps. rewrite Hem1. simpl. rewrite Hon. simpl. rewrite Hcodec. simpl.
    destruct (verifyToken x s); simpl; split; congruence.
  - rewrite <- includes_In. steps. rewrite Hem1. simpl. rewrite Hon. simpl.
    destruct (existsb (String.eqb x) (generateBackupCodes seed)); simpl;
      split; congruence.
Qed.

(** X9: after a successful disable the second factor is off and gone.
    Validate and backup answer 400 'Invalid request' for the account, a
    login with the right password gets the session token directly, and a
    verify or another disable finds no secret and ends in 500. *)
Theorem after_disable
    (db : Db) (i tok secret : string) (u : User) :
  byId i db = Some u ->
  byEmail (email u) db = Some u ->
  decrypt2FASecret decrypt_blob (twoFactorSecret (securitySettings u))
    = Some secret ->
  verifyToken tok secret = true ->
  exists db1 u1,
    run (Disable i tok) db = (db1, reply 200 "2FA disabled successfully")
    /\ byEmail (email u) db1 = Some u1
    /\ (forall x, run (Validate (email u) x) db1 = (db1, reply 400 "Invalid request"))
    /\ (forall x, run (Backup (email u) x) db1 = (db1, reply 400 "Invalid request"))
    /\ (forall x, run (Verify i x) db1 = (db1, reply 500 "Server error"))
    /\ (forall x, run (Disable i x) db1 = (db1, reply 500 "Server error"))
    /\ (forall pw,
          comparePassword u1 pw = true ->
          run (Login (email u) pw) db1
          = (db1, {| status := 200; json := session u |})).
Proof.
  intros Hid Hem Hdec Htok.
  set (u1 := with_securitySettings u
               {| twoFactorEnabled := false; twoFactorSecret := None;
                  twoFactorBackupCodes := None |}).
  assert (Hid1 : byId i (put u1 db) = Some u1)
    by now apply byId_put_same with (u := u).
  assert (Hem1 : byEmail (email u) (put u1 db) = Some u1)
    by now apply byEmail_put with (u := u).
  exists (put u1 db), u1.
  split; [|split; [exact Hem1 | split; [|split; [|split; [|split]]]]].
  - steps. rewrite Hid. unfold decrypt2FASecret in Hdec. rewrite Hdec.
    simpl. now rewrite Htok.
  - intros x. steps. now rewrite Hem1.
  - intros x. steps. now rewrite Hem1.
  - intros x. steps. now rewrite Hid1.
  - intros x. steps. now rewrite Hid1.
  - intros pw Hpw. steps. rewrite Hem1, Hpw. reflexivity.
Qed.

(** X10: a successful redemption removes every occurrence of the code, not
    one of them: the set shrinks by the number of times the code was in
    it, and the code is gone. *)
Theorem redemption_removes_all_occurrences
    (db : Db) (e code : string) (u : User) (codes : list string) :
  byEmail e db = Some u ->
  twoFactorEnabled (securitySettings u) = true ->
  twoFactorBackupCodes (securitySettings u) = Some codes ->
  In code codes ->
  exists db1 u1 codes1,
    run (Backup e code) db = (db1, {| status := 200; json := session u |})
    /\ byEmail e db1 = Some u1
    /\ twoFactorBackupCodes (securitySettings u1) = Some codes1
    /\ (length codes1 + count_occ string_dec codes code = length codes)%nat
    /\ count_occ string_dec codes1 code = 0%nat
    /\ twoFactorSecret (securitySettings u1) = twoFactorSecret (securitySettings u)
    /\ twoFactorEnabled (securitySettings u1) = true.
Proof.
  intros Hfind Hon Hcodes Hin.
  set (codes1 := filter (fun c => negb (String.eqb c code)) codes).
  set (u1 := with_securitySettings u
               {| twoFactorEnabled := true;
                  twoFactorSecret := twoFactorSecret (securitySettings u);
                  twoFactorBackupCodes := Some codes1 |}).
  exists (put u1 db), u1, codes1.
  split; [|split; [|split; [|split; [|split; [|split]]]]]; try reflexivity.
  - apply includes_In in Hin. steps. rewrite Hfind, Hon, Hcodes. simpl.
    now rewrite Hin.
  - now apply byEmail_put with (u := u).
  - apply filter_drops_code.
  - apply count_occ_not_In. apply filter_removes_code.
Qed.

(** X11: the backup route does not need the secret.  For an account with
    2FA enabled whose stored secret is missing or does not decrypt, every
    validate ends in 500, while a backup code still in the set opens a
    session. *)
Theorem backup_code_works_without_secret
    (db : Db) (e code : string) (u : User) (codes : list string) :
  byEmail e db = Some u ->
  twoFactorEnabled (securitySettings u) = true ->
  decrypt2FASecret decrypt_blob (twoFactorSecret (securitySettings u)) = None ->
  twoFactorBackupCodes (securitySettings u) = Some codes ->
  In code codes ->
  (forall x, run (Validate e x) db = (db, reply 500 "Server error"))
  /\ exists db1,
       run (Backup e code) db = (db1, {| status := 200; json := session u |}).
Proof.
  intros Hfind Hon Hdec Hcodes Hin. split.
  - intros x. steps. rewrite Hfind, Hon. unfold decrypt2FASecret in Hdec.
    simpl. now rewrite Hdec.
  - apply includes_In in Hin. eexists. steps.
    rewrite Hfind, Hon, Hcodes. simpl. rewrite Hin. reflexivity.
Qed.

End RouteExtras.

(** ** The account routes *)

Lemma find_all_false {A} (f : A -> bool) (l : list A) :
  (forall x, In x l -> f x = false) -> find f l = None.
Proof.
  induction l as [|a l IH]; simpl; intros H; [reflexivity|].
  rewrite (H a) by now left. apply IH. intros x Hx. apply H. now right.
Qed.

Lemma find_first {A} (f : A -> bool) (l : list A) (x : A) :
  In x l -> f x = true -> exists y, find f l = Some y.
Proof.
  intros Hin Hx. destruct (find f l) as [y|] eqn:E; [now exists y|].
  pose proof (find_none f l E x Hin). congruence.
Qed.


Lemma find_hasId_replace (a a' : Account.Account) (l : list Account.Account) :
  In a l -> _id (Account.core a) = _id (Account.core a') ->
  find (Account.hasId (_id (Account.core a'))) (Account.replace a' l) = Some a'.
Proof.
  intros Hin Hid. unfold Account.replace, Account.hasId.
  induction l as [|b l IH]; simpl; [contradiction|].
  destruct (String.eqb (_id (Account.core b)) (_id (Account.core a'))) eqn:E.
  - now rewrite String.eqb_refl.
  - rewrite E. destruct Hin as [-> | Hin]; [|now apply IH].
    apply String.eqb_neq in E. contradiction.
Qed.

Lemma validatorLength_le_length (s : string) :
  Account.validatorLength s <= String.length s.
Proof.
  assert (H : Account.codePoints s <= String.length s).
  { induction s as [|c s IH]; simpl; [lia|].
    destruct (Account.isContinuation c); lia. }
  unfold Account.validatorLength. lia.
Qed.

(** Three ideographs are nine bytes and three characters; a heart with a
    variation selector is six bytes and one character. *)
Example validatorLength_counts_characters :
  String.length "日本語" = 9 /\ Account.validatorLength "日本語" = 3
  /\ String.length "❤️" = 6 /\ Account.validatorLength "❤️" = 1
  /\ Account.isLength 6 "日本語" = false.
Proof. repeat split. Qed.

Lemma isLength_short (min : nat) (s : string) :
  String.length s < min -> Account.isLength min s = false.
Proof.
  intros H. unfold Account.isLength. apply Nat.leb_gt.
  pose proof (validatorLength_le_length s). lia.
Qed.

Lemma isLength_long (min : nat) (s : string) :
  min <= Account.validatorLength s -> Account.isLength min s = true.
Proof.
  intros H. unfold Account.isLength. now apply Nat.leb_le.
Qed.

Section AccountExtras.

Local Open Scope Z_scope.

Variable comparePassword : User -> string -> bool.
Variable jwt_sign : string -> string.
Variable trim : string -> string.
Variable normalizeEmail : string -> string.
Variable isEmail : string -> bool.
Variable errorEntry : string -> option string -> Json.
Variable defaults : Account.Account.
Variable newId : nat -> string.
Variable generateEmailVerificationToken :
  Account.Account -> nat -> Z -> Account.Account * string.
Variable generatePasswordResetToken :
  Account.Account -> nat -> Z -> Account.Account * string.
Variable hashPassword : string -> string.
Variable toJSON : Account.Account -> Json.
Variable FRONTEND_URL : string.
Variable SMTP_FROM : string.
Variable delivers : Account.Mail -> bool.

Local Abbreviation run :=
  (Account.serve comparePassword jwt_sign trim normalizeEmail isEmail
                 errorEntry defaults newId generateEmailVerificationToken
                 generatePasswordResetToken hashPassword toJSON
                 FRONTEND_URL SMTP_FROM delivers).

Local Abbreviation reply code text :=
  {| status := code; json := message text |}.

Ltac acts :=
  cbv [Account.serve Account.handle Account.post_register
       Account.get_verify_email Account.post_forgot_password
       Account.post_reset_password Account.put_profile
       Account.put_change_password Account.bind Account.findOne
       Account.save Account.insert Account.respond Account.ret
       Account.sendMail Account.invalid Account.check].


(** X13: a verification token is dead from its expiry time on.  If every
    account that holds the token has an expiry at or before the clock
    (equal counts as expired), or none is stored, the route answers 400
    'Invalid or expired token' and changes nothing. *)
Theorem expired_verification_token_rejected
    (w : Account.World) (t : string) (now : Z) :
  (forall b x, In b (Account.users w) ->
               Account.emailVerificationToken b = Some t ->
               Account.emailVerificationExpires b = Some x ->
               x <= now) ->
  run (Account.VerifyEmail t) now w = (w, reply 400 "Invalid or expired token").
Proof.
  intros Hold. acts. rewrite find_all_false; [reflexivity|].
  intros b Hb. unfold Account.hasVerificationToken, Account.liveToken.
  destruct (Account.emailVerificationToken b) as [t'|] eqn:Ht; [|reflexivity].
  destruct (Account.emailVerificationExpires b) as [x|] eqn:Hx; [|reflexivity].
  destruct (String.eqb t' t) eqn:E; [|reflexivity].
  apply String.eqb_eq in E. subst t'. simpl.
  apply Z.ltb_ge. now apply (Hold b x).
Qed.



(** X16: forgot-password tells whether an address is registered.  For a
    well-formed address with no account the answer is 400 'User not
    found' and nothing changes; for one with an account the answer is
    never 400.  (The login route, by contrast, answers the same for both.) *)
Theorem forgot_password_reveals_registration
    (w : Account.World) (e : string) (seed : nat) (now : Z) :
  isEmail e = true ->
  (find (Account.hasEmail (normalizeEmail e)) (Account.users w) = None ->
   run (Account.ForgotPassword e seed) now w = (w, reply 400 "User not found"))
  /\ (find (Account.hasEmail (normalizeEmail e)) (Account.users w) <> None ->
      status (snd (run (Account.ForgotPassword e seed) now w)) <> 400%nat).
Proof.
  intros Hmail. split.
  - intros Hnone. acts. now rewrite Hmail, Hnone.
  - intros Hsome. acts. rewrite Hmail. simpl.
    destruct (find _ (Account.users w)) as [a|]; [|now elim Hsome].
    destruct (generatePasswordResetToken a seed now) as [a' token].
    simpl. destruct (delivers _); simpl; discriminate.
Qed.

(** X17: forgot-password saves before it sends.  For a registered address
    the document the token method returns is stored first; if the
    transport accepts the mail, it is one mail to the normalized address
    whose body carries the reset link with the token, answered 200; if
    the transport rejects it, the answer is 500, no mail is recorded, and
    the token is stored all the same. *)
Theorem forgot_password_saves_before_sending
    (w : Account.World) (e : string) (seed : nat) (now : Z) (a : Account.Account) :
  isEmail e = true ->
  find (Account.hasEmail (normalizeEmail e)) (Account.users w) = Some a ->
  exists mail,
    mail = {| Account.from := SMTP_FROM;
              Account.to := normalizeEmail e;
              Account.subject := "Password Reset Request";
              Account.html :=
                Account.resetHtml
                  (FRONTEND_URL ++ "/reset-password/"
                   ++ snd (generatePasswordResetToken a seed now)) |}
    /\ Account.users (fst (run (Account.ForgotPassword e seed) now w))
       = Account.replace (fst (generatePasswordResetToken a seed now))
                         (Account.users w)
    /\ (delivers mail = true ->
        snd (run (Account.ForgotPassword e seed) now w)
        = reply 200 "Password reset email sent"
        /\ Account.outbox (fst (run (Account.ForgotPassword e seed) now w))
           = Account.outbox w ++ [mail])
    /\ (delivers mail = false ->
        snd (run (Account.ForgotPassword e seed) now w)
        = reply 500 "Server error"
        /\ Account.outbox (fst (run (Account.ForgotPassword e seed) now w))
           = Account.outbox w).
Proof.
  intros Hmail Hfind. eexists. split; [reflexivity|].
  acts. rewrite Hmail. simpl. rewrite Hfind.
  destruct (generatePasswordResetToken a seed now) as [a' token]. simpl.
  destruct (delivers _) eqn:Hd; simpl;
    (split; [reflexivity | split; intros H; try discriminate; now split]).
Qed.

(** X18: registration refuses a taken email or username.  When the input
    passes validation (lengths as [isLength] counts them) and some account already has the normalized email or
    the trimmed username, the answer is 400 'User already exists'; no
    account is created and no mail is sent. *)
Theorem register_rejects_taken_email_or_username
    (w : Account.World) (n e pw : string) (seed : nat) (now : Z)
    (b : Account.Account) :
  (3 <= Account.validatorLength (trim n))%nat ->
  isEmail e = true ->
  (6 <= Account.validatorLength pw)%nat ->
  In b (Account.users w) ->
  email (Account.core b) = normalizeEmail e
  \/ username (Account.core b) = trim n ->
  run (Account.Register n e pw seed) now w = (w, reply 400 "User already exists").
Proof.
  intros Hn He Hp Hin Htaken.
  apply isLength_long in Hn. apply isLength_long in Hp.
  assert (Hb : Account.hasEmailOrUsername (normalizeEmail e) (trim n) b = true).
  { unfold Account.hasEmailOrUsername. apply orb_true_iff.
    destruct Htaken as [H | H]; [left | right]; now apply String.eqb_eq. }
  destruct (find_first _ _ b Hin Hb) as [c Hc].
  acts. rewrite Hn, He, Hp. simpl. now rewrite Hc.
Qed.

(** X19: registration stores the account before it sends the mail.  When
    the input passes validation and neither the normalized email nor the
    trimmed username is taken, the route builds the schema defaults with a
    fresh [_id], the trimmed username, the normalized email and the
    password, lets the token method work on that document, and appends the
    result, with the password hashed, to the store.  If the transport
    accepts the verification mail the answer is 201 with a session token
    for the new id and the mail is the only one recorded; if it rejects
    the mail the answer is 500 and the account exists all the same. *)
Theorem register_stores_account_before_mail
    (w : Account.World) (n e pw : string) (seed : nat) (now : Z) :
  (3 <= Account.validatorLength (trim n))%nat ->
  isEmail e = true ->
  (6 <= Account.validatorLength pw)%nat ->
  find (Account.hasEmailOrUsername (normalizeEmail e) (trim n)) (Account.users w)
    = None ->
  exists doc token mail,
    generateEmailVerificationToken
      {| Account.core :=
           {| _id := newId seed;
              username := trim n;
              email := normalizeEmail e;
              password := pw;
              role := role (Account.core defaults);
              isEmailVerified := isEmailVerified (Account.core defaults);
              securitySettings := securitySettings (Account.core defaults) |};
         Account.emailVerificationToken := Account.emailVerificationToken defaults;
         Account.emailVerificationExpires := Account.emailVerificationExpires defaults;
         Account.passwordResetToken := Account.passwordResetToken defaults;
         Account.passwordResetExpires := Account.passwordResetExpires defaults;
         Account.profile := Account.profile defaults |}
      seed now
    = (doc, token)
    /\ mail = {| Account.from := SMTP_FROM;
                 Account.to := normalizeEmail e;
                 Account.subject := "Verify your email address";
                 Account.html :=
                   Account.verificationHtml
                     (FRONTEND_URL ++ "/verify-email/" ++ token) |}
    /\ Account.users (fst (run (Account.Register n e pw seed) now w))
       = Account.users w
         ++ [Account.with_core doc
               (Account.with_password (Account.core doc)
                  (hashPassword (password (Account.core doc))))]
    /\ (delivers mail = true ->
        snd (run (Account.Register n e pw seed) now w)
        = {| status := 201;
             json := JObj [("token", JStr (jwt_sign (_id (Account.core doc))));
                           ("user", summary (Account.core doc))] |}
        /\ Account.outbox (fst (run (Account.Register n e pw seed) now w))
           = Account.outbox w ++ [mail])
    /\ (delivers mail = false ->
        snd (run (Account.Register n e pw seed) now w) = reply 500 "Server error"
        /\ Account.outbox (fst (run (Account.Register n e pw seed) now w))
           = Account.outbox w).
Proof.
  intros Hn He Hp Hfree.
  apply isLength_long in Hn. apply isLength_long in Hp.
  destruct (generateEmailVerificationToken
              (Account.newUser defaults newId (trim n) (normalizeEmail e) pw seed)
              seed now) as [doc token] eqn:Hgen.
  exists doc, token. eexists. split; [exact Hgen | split; [reflexivity|]].
  acts. rewrite Hn, He, Hp. simpl.
  rewrite Hfree, Hgen. simpl.
  destruct (delivers _) eqn:Hd; simpl;
    (split; [reflexivity | split; intros H; try discriminate; now split]).
Qed.


(** X21: change-password checks in a fixed order and writes only at the
    end.  A request without [currentPassword] or with a new password under
    six characters is answered 400 with validation errors, even for a user
    that does not exist; otherwise a missing user is 404, a wrong current
    password 400 'Current password is incorrect'.  None of these changes
    anything.  Lengths are as [isLength] counts them; fewer than six bytes
    is always short. *)
Theorem change_password_rejections
    (w : Account.World) (i np : string) (cur : option string) :
  (cur = None \/ (String.length np < 6)%nat ->
   exists err errs,
     forall now,
       run (Account.ChangePassword i cur np) now w
       = (w, {| status := 400; json := JObj [("errors", JArr (err :: errs))] |}))
  /\ (forall c now,
        cur = Some c -> (6 <= Account.validatorLength np)%nat ->
        find (Account.hasId i) (Account.users w) = None ->
        run (Account.ChangePassword i cur np) now w
        = (w, reply 404 "User not found"))
  /\ (forall c a now,
        cur = Some c -> (6 <= Account.validatorLength np)%nat ->
        find (Account.hasId i) (Account.users w) = Some a ->
        comparePassword (Account.core a) c = false ->
        run (Account.ChangePassword i cur np) now w
        = (w, reply 400 "Current password is incorrect")).
Proof.
  split; [|split].
  - intros Hbad. acts.
    destruct cur as [c|]; destruct (Account.isLength 6 np) eqn:Hp; simpl;
      try (eexists; eexists; intros now; reflexivity).
    destruct Hbad as [H | H]; [discriminate|].
    apply isLength_short in H. congruence.
  - intros c now -> Hp Hfind. apply isLength_long in Hp.
    acts. rewrite Hp. simpl. now rewrite Hfind.
  - intros c a now -> Hp Hfind Hcmp. apply isLength_long in Hp.
    acts. rewrite Hp. simpl.
    now rewrite Hfind, Hcmp.
Qed.

(** X22: a change of password with the right current password and a new
    one that [isLength] counts six or more long stores the hash of the new password and
    nothing else: the rest of the document, the 2FA settings and the
    tokens included, is as before, and no mail is sent. *)
Theorem change_password_writes_the_hash_only
    (w : Account.World) (i c np : string) (now : Z) (a : Account.Account) :
  (6 <= Account.validatorLength np)%nat ->
  find (Account.hasId i) (Account.users w) = Some a ->
  comparePassword (Account.core a) c = true ->
  run (Account.ChangePassword i (Some c) np) now w
  = ({| Account.users :=
          Account.replace
            (Account.with_core a
               (Account.with_password (Account.core a) (hashPassword np)))
            (Account.users w);
        Account.outbox := Account.outbox w |},
     reply 200 "Password changed successfully")
  /\ find (Account.hasId i)
          (Account.users (fst (run (Account.ChangePassword i (Some c) np) now w)))
     = Some (Account.with_core a
               (Account.with_password (Account.core a) (hashPassword np))).
Proof.
  intros Hp Hfind Hcmp. apply isLength_long in Hp.
  assert (E : run (Account.ChangePassword i (Some c) np) now w
              = ({| Account.users :=
                      Account.replace
                        (Account.with_core a
                           (Account.with_password (Account.core a) (hashPassword np)))
                        (Account.users w);
                    Account.outbox := Account.outbox w |},
                 reply 200 "Password changed successfully")).
  { acts. rewrite Hp. simpl.
    now rewrite Hfind, Hcmp. }
  split; [exact E|]. rewrite E. simpl.
  apply find_some in Hfind. destruct Hfind as [Hin Hid].
  apply String.eqb_eq in Hid. subst i.
  now apply (find_hasId_replace a
               (Account.with_core a
                  (Account.with_password (Account.core a) (hashPassword np)))).
Qed.


(** X24: a 400 or a 404 from these routes means nothing happened: the
    documents and the outbox are the ones before the request. *)
Theorem client_error_changes_nothing
    (req : Account.Request) (now : Z) (w : Account.World) :
  status (snd (run req now w)) = 400%nat
  \/ status (snd (run req now w)) = 404%nat ->
  fst (run req now w) = w.
Proof.
  destruct req as [n e p seed | t | e seed | t p | i f l b | i c np]; acts.
  - destruct (_ ++ _) as [|err errs]; simpl; [|reflexivity].
    destruct (find _ (Account.users w)); simpl; [reflexivity|].
    destruct (generateEmailVerificationToken _ seed now) as [doc token].
    simpl. destruct (delivers _); simpl; intros [H | H]; discriminate.
  - destruct (find _ (Account.users w)); simpl; [|reflexivity].
    intros [H | H]; discriminate.
  - destruct (if isEmail e then _ else _) as [|err errs]; simpl; [|reflexivity].
    destruct (find _ (Account.users w)) as [a|]; simpl; [|reflexivity].
    destruct (generatePasswordResetToken a seed now) as [a' token].
    simpl. destruct (delivers _); simpl; intros [H | H]; discriminate.
  - destruct (if Account.isLength 6 p then _ else _) as [|err errs]; simpl;
      [|reflexivity].
    destruct (find _ (Account.users w)); simpl; [|reflexivity].
    intros [H | H]; discriminate.
  - destruct (find _ (Account.users w)); simpl; [|reflexivity].
    intros [H | H]; discriminate.
  - destruct (_ ++ _) as [|err errs]; simpl.
    + destruct c as [c|]; simpl; [|reflexivity].
      destruct (find _ (Account.users w)) as [a|]; simpl; [|reflexivity].
      destruct (negb (comparePassword (Account.core a) c)); simpl;
        [reflexivity|].
      intros [H | H]; discriminate.
    + destruct c; reflexivity.
Qed.

End AccountExtras.

(** ** The cart drawer *)

Section CartExtras.

Local Open Scope Z_scope.

Variable isLowPowerMode : bool.

(** X25: the quantity handler never passes a quantity of zero or less to
    the cart.  It makes exactly one change to the cart, after one
    analytics event: for a new quantity of zero or less it removes the
    line, otherwise it sets the line of this item to the new quantity. *)
Theorem quantity_update_is_guarded (item : Cart.Item) (q : Z) :
  (forall i q',
      In (Cart.updateQuantity i q') (Cart.handleUpdateQuantity isLowPowerMode item q) ->
      i = Cart.id item /\ q' = q /\ 0 < q)
  /\ (forall i,
        In (Cart.removeFromCart i) (Cart.handleUpdateQuantity isLowPowerMode item q) ->
        i = Cart.id item /\ q <= 0)
  /\ exists event change,
       Cart.handleUpdateQuantity isLowPowerMode item q = [event; change]
       /\ Cart.changesCart event = false
       /\ Cart.changesCart change = true.
Proof.
  unfold Cart.handleUpdateQuantity, Cart.handleRemoveItem.
  destruct (q <=? 0) eqn:Hq; [apply Z.leb_le in Hq | apply Z.leb_gt in Hq].
  - split; [|split].
    + intros i q' [H | [H | []]]; discriminate.
    + intros i [H | [H | []]]; [discriminate|].
      injection H as <-. now split.
    + eexists _, _. repeat split.
  - split; [|split].
    + intros i q' [H | [H | []]]; [discriminate|].
      injection H as <- <-. now repeat split.
    + intros i [H | [H | []]]; discriminate.
    + eexists _, _. repeat split.
Qed.

Lemma roundPositive_exact (x : Z) : 0 <= x < 2 ^ 53 -> Cart.roundPositive x = x.
Proof.
  intros [H0 H]. unfold Cart.roundPositive.
  assert (Hlog : Z.log2 x <= 52).
  { destruct (Z.eq_dec x 0) as [-> | Hx]; [simpl; lia|].
    assert (Z.log2 x < 53) by (apply Z.log2_lt_pow2; lia). lia. }
  replace (Z.log2 x - 52 <=? 0) with true; [reflexivity|].
  symmetry. apply Z.leb_le. lia.
Qed.

Lemma roundPositive_positive (x : Z) : 0 < x -> 0 < Cart.roundPositive x.
Proof.
  intros Hx. unfold Cart.roundPositive.
  destruct (Z.log2 x - 52 <=? 0) eqn:He; [exact Hx|].
  apply Z.leb_gt in He.
  set (e := Z.log2 x - 52) in *.
  assert (Hunit : 0 < 2 ^ e) by (apply Z.pow_pos_nonneg; lia).
  assert (Hle : 2 ^ e <= x).
  { destruct (Z.log2_spec x Hx) as [Hlow _].
    apply Z.le_trans with (2 ^ Z.log2 x); [|exact Hlow].
    apply Z.pow_le_mono_r; lia. }
  assert (Hq : 1 <= x / 2 ^ e)
    by (apply Z.div_le_lower_bound; lia).
  destruct (x mod 2 ^ e <? 2 ^ e / 2); [nia|].
  destruct (2 ^ e / 2 <? x mod 2 ^ e); [nia|].
  destruct (Z.even (x / 2 ^ e)); nia.
Qed.

Lemma toDouble_exact (x : Z) : - 2 ^ 53 < x < 2 ^ 53 -> Cart.toDouble x = x.
Proof.
  intros H. unfold Cart.toDouble. destruct (x <? 0) eqn:Hx.
  - apply Z.ltb_lt in Hx. rewrite roundPositive_exact; lia.
  - apply Z.ltb_ge in Hx. apply roundPositive_exact. lia.
Qed.

Lemma toDouble_nonpositive (x : Z) : x <= 0 -> Cart.toDouble x <= 0.
Proof.
  intros H. unfold Cart.toDouble. destruct (x <? 0) eqn:Hx.
  - apply Z.ltb_lt in Hx.
    pose proof (roundPositive_positive (- x) ltac:(lia)). lia.
  - apply Z.ltb_ge in Hx. replace x with 0 by lia. reflexivity.
Qed.

Lemma toDouble_positive (x : Z) : 0 < x -> 0 < Cart.toDouble x.
Proof.
  intros H. unfold Cart.toDouble.
  replace (x <? 0) with false by (symmetry; apply Z.ltb_ge; lia).
  now apply roundPositive_positive.
Qed.

(** At 2^53 the doubles are two apart: adding one gives 2^53 again, and
    2^53 + 2 less one is 2^53. *)
Example jsAdd_saturates :
  Cart.jsAdd (2 ^ 53 - 1) 1 = 2 ^ 53
  /\ Cart.jsAdd (2 ^ 53) 1 = 2 ^ 53
  /\ Cart.jsSub (2 ^ 53 + 2) 1 = 2 ^ 53
  /\ Cart.jsAdd (2 ^ 53 + 2) 1 = 2 ^ 53 + 4.
Proof. repeat split. Qed.

(** X26: the minus button on a line whose quantity is one (or less) removes
    the line instead of storing a quantity of zero; on a larger quantity,
    up to 2^53, it stores one less.  The plus button on a line with a
    quantity of zero or more never removes, and below 2^53 it stores one
    more.  (From 2^53 on, adding or subtracting one is rounded.) *)
Theorem minus_button_removes_last_unit (item : Cart.Item) :
  (Cart.quantity item <= 1 ->
   Cart.onMinus isLowPowerMode item = Cart.handleRemoveItem isLowPowerMode item)
  /\ (1 < Cart.quantity item <= 2 ^ 53 ->
      In (Cart.updateQuantity (Cart.id item) (Cart.quantity item - 1))
         (Cart.onMinus isLowPowerMode item))
  /\ (0 <= Cart.quantity item ->
      forall i, ~ In (Cart.removeFromCart i) (Cart.onPlus isLowPowerMode item))
  /\ (0 <= Cart.quantity item < 2 ^ 53 ->
      In (Cart.updateQuantity (Cart.id item) (Cart.quantity item + 1))
         (Cart.onPlus isLowPowerMode item)).
Proof.
  unfold Cart.onMinus, Cart.onPlus, Cart.handleUpdateQuantity,
    Cart.jsAdd, Cart.jsSub.
  split; [|split; [|split]].
  - intros H.
    pose proof (toDouble_nonpositive (Cart.quantity item - 1) ltac:(lia)) as Hd.
    apply Z.leb_le in Hd. now rewrite Hd.
  - intros H. rewrite (toDouble_exact (Cart.quantity item - 1)) by lia.
    replace (Cart.quantity item - 1 <=? 0) with false
      by (symmetry; apply Z.leb_gt; lia).
    simpl. tauto.
  - intros H i.
    pose proof (toDouble_positive (Cart.quantity item + 1) ltac:(lia)) as Hd.
    apply Z.leb_gt in Hd. rewrite Hd.
    intros [H1 | [H1 | []]]; discriminate.
  - intros H.
    assert (Hd : Cart.toDouble (Cart.quantity item + 1) = Cart.quantity item + 1).
    { destruct (Z.eq_dec (Cart.quantity item + 1) (2 ^ 53)) as [-> | Hne];
        [reflexivity | apply toDouble_exact; lia]. }
    rewrite Hd.
    replace (Cart.quantity item + 1 <=? 0) with false
      by (symmetry; apply Z.leb_gt; lia).
    simpl. tauto.
Qed.

End CartExtras.

(** ** The further properties on the concrete deployments *)

Local Abbreviation at_demo t :=
  (t Demo.comparePassword Demo.jwt_sign Demo.generateSecret
     Demo.generateQRCode Demo.generateBackupCodes Demo.encrypt2FASecret
     Demo.decrypt_blob Demo.verifyToken).

Local Abbreviation at_account_demo t :=
  (t AccountDemo.comparePassword AccountDemo.jwt_sign AccountDemo.trim
     AccountDemo.normalizeEmail AccountDemo.isEmail AccountDemo.errorEntry
     AccountDemo.defaults AccountDemo.newId
     AccountDemo.generateEmailVerificationToken
     AccountDemo.generatePasswordResetToken AccountDemo.hashPassword
     AccountDemo.toJSON AccountDemo.FRONTEND_URL AccountDemo.SMTP_FROM).

Lemma Demo_consistent : Forall Consistent Demo.db.
Proof.
  unfold Demo.db.
  repeat (apply Forall_cons; [split; simpl; intros; congruence|]).
  apply Forall_nil.
Qed.

Lemma Demo_accepts_098557 :
  Demo.verifyToken "098557" "GEZDGNBVGY3TQOJQGEZDGNBVGY3TQOJQ" = true.
Proof. vm_compute. reflexivity. Qed.

Lemma failed_request_changes_nothing_witness :
  status (snd (Demo.serve (Backup "alice@example.com" "99999999") Demo.db))
    <> 200%nat
  /\ fst (Demo.serve (Backup "alice@example.com" "99999999") Demo.db) = Demo.db.
Proof.
  assert (H : status (snd (Demo.serve (Backup "alice@example.com" "99999999")
                                      Demo.db)) <> 200%nat)
    by (simpl; discriminate).
  split; [exact H|].
  exact (at_demo failed_request_changes_nothing
           (Backup "alice@example.com" "99999999") Demo.db H).
Defined.

Lemma requests_keep_identities_witness :
  NoDup (map _id Demo.db)
  /\ map identity (fst (Demo.serve (Setup "u1" 0) Demo.db))
     = map identity Demo.db.
Proof.
  split; [exact Demo_ids_unique|].
  exact (proj1 (at_demo requests_keep_identities
                  (Setup "u1" 0) Demo.db Demo_ids_unique)).
Defined.

Lemma requests_keep_consistency_witness :
  Forall Consistent Demo.db
  /\ Forall Consistent (fst (Demo.serve (Verify "u2" "619585") Demo.db)).
Proof.
  split; [exact Demo_consistent|].
  exact (at_demo requests_keep_consistency
           (Verify "u2" "619585") Demo.db Demo_consistent).
Defined.

Lemma backup_finds_its_codes_witness :
  Forall Consistent Demo.db
  /\ byEmail "alice@example.com" Demo.db = Some Demo.alice
  /\ exists codes,
       twoFactorBackupCodes (securitySettings Demo.alice) = Some codes
       /\ (~ In "99999999" codes ->
           Demo.serve (Backup "alice@example.com" "99999999") Demo.db
           = (Demo.db, {| status := 400; json := message "Invalid backup code" |})).
Proof.
  split; [exact Demo_consistent | split; [reflexivity|]].
  destruct (at_demo backup_finds_its_codes
              Demo.db "alice@example.com" "99999999" Demo.alice
              Demo_consistent eq_refl eq_refl)
    as [codes [H1 [H2 _]]].
  exists codes. exact (conj H1 H2).
Defined.

Lemma requests_touch_their_actor_only_witness :
  actor (Backup "alice@example.com" "22222222") Demo.db <> Some "u2"
  /\ byId "u2" (fst (Demo.serve (Backup "alice@example.com" "22222222") Demo.db))
     = Some Demo.bob.
Proof.
  assert (H : actor (Backup "alice@example.com" "22222222") Demo.db <> Some "u2")
    by (simpl; discriminate).
  split; [exact H|].
  exact (at_demo requests_touch_their_actor_only
           (Backup "alice@example.com" "22222222") Demo.db "u2" H).
Defined.

Lemma enrollment_end_to_end_witness :
  byId "u3" Demo.db = Some Demo.carol
  /\ byEmail "carol@example.com" Demo.db = Some Demo.carol
  /\ exists db1 r1 db2 u2,
       Demo.serve (Setup "u3" 5) Demo.db = (db1, r1)
       /\ Demo.serve (Verify "u3" "098557") db1
          = (db2, {| status := 200; json := message "2FA enabled successfully" |})
       /\ byEmail "carol@example.com" db2 = Some u2
       /\ twoFactorEnabled (securitySettings u2) = true.
Proof.
  split; [reflexivity | split; [reflexivity|]].
  destruct (at_demo enrollment_end_to_end
              Demo.db "u3" "098557" 5%nat Demo.carol
              eq_refl eq_refl eq_refl Demo_accepts_098557)
    as [db1 [r1 [db2 [u2 [H1 [_ [H3 [H4 [H5 _]]]]]]]]].
  exists db1, r1, db2, u2. exact (conj H1 (conj H3 (conj H4 H5))).
Defined.

Lemma setup_on_enabled_account_swaps_factor_witness :
  byId "u1" Demo.db = Some Demo.alice
  /\ twoFactorEnabled (securitySettings Demo.alice) = true
  /\ (status (snd (Demo.serve (Backup "alice@example.com" "11111111")
                              (fst (Demo.serve (Setup "u1" 0) Demo.db))))
        = 200%nat
      <-> In "11111111" (Demo.generateBackupCodes 0)).
Proof.
  split; [reflexivity | split; [reflexivity|]].
  exact (proj2 (at_demo setup_on_enabled_account_swaps_factor
                  Demo.db "u1" "11111111" 0%nat Demo.alice
                  eq_refl eq_refl eq_refl eq_refl)).
Defined.

Lemma after_disable_witness :
  byId "u1" Demo.db = Some Demo.alice
  /\ exists db1 u1,
       Demo.serve (Disable "u1" "619585") Demo.db
       = (db1, {| status := 200; json := message "2FA disabled successfully" |})
       /\ byEmail "alice@example.com" db1 = Some u1
       /\ Demo.serve (Backup "alice@example.com" "11111111") db1
          = (db1, {| status := 400; json := message "Invalid request" |})
       /\ Demo.serve (Disable "u1" "619585") db1
          = (db1, {| status := 500; json := message "Server error" |}).
Proof.
  split; [reflexivity|].
  destruct (at_demo after_disable
              Demo.db "u1" "619585" Demo.secret0 Demo.alice
              eq_refl eq_refl eq_refl Demo_accepts_619585)
    as [db1 [u1 [H1 [H2 [_ [H4 [_ [H6 _]]]]]]]].
  exists db1, u1.
  exact (conj H1 (conj H2 (conj (H4 "11111111") (H6 "619585")))).
Defined.

(** A store whose only user holds one backup code twice and has a stored
    secret that does not decrypt. *)
Lemma redemption_removes_all_occurrences_witness :
  exists db1 u1 codes1,
    Demo.serve (Backup "alice@example.com" "11111111")
      [with_securitySettings Demo.alice
         {| twoFactorEnabled := true; twoFactorSecret := Some "garbage";
            twoFactorBackupCodes := Some ["11111111"; "22222222"; "11111111"] |}]
    = (db1, {| status := 200;
               json := JObj [("token", JStr "jwt.u1");
                             ("user", summary Demo.alice)] |})
    /\ byEmail "alice@example.com" db1 = Some u1
    /\ twoFactorBackupCodes (securitySettings u1) = Some codes1
    /\ (length codes1 + 2 = 3)%nat.
Proof.
  destruct (at_demo redemption_removes_all_occurrences
              [with_securitySettings Demo.alice
                 {| twoFactorEnabled := true; twoFactorSecret := Some "garbage";
                    twoFactorBackupCodes :=
                      Some ["11111111"; "22222222"; "11111111"] |}]
              "alice@example.com" "11111111" _ _
              eq_refl eq_refl eq_refl (or_introl eq_refl))
    as [db1 [u1 [codes1 [H1 [H2 [H3 [H4 _]]]]]]].
  exists db1, u1, codes1. exact (conj H1 (conj H2 (conj H3 H4))).
Defined.

Lemma backup_code_works_without_secret_witness :
  Demo.decrypt_blob "garbage" = None
  /\ Demo.serve (Validate "alice@example.com" "619585")
       [with_securitySettings Demo.alice
          {| twoFactorEnabled := true; twoFactorSecret := Some "garbage";
             twoFactorBackupCodes := Some ["11111111"] |}]
     = ([with_securitySettings Demo.alice
           {| twoFactorEnabled := true; twoFactorSecret := Some "garbage";
              twoFactorBackupCodes := Some ["11111111"] |}],
        {| status := 500; json := message "Server error" |})
  /\ exists db1,
       Demo.serve (Backup "alice@example.com" "11111111")
         [with_securitySettings Demo.alice
            {| twoFactorEnabled := true; twoFactorSecret := Some "garbage";
               twoFactorBackupCodes := Some ["11111111"] |}]
       = (db1, {| status := 200;
                  json := JObj [("token", JStr "jwt.u1");
                                ("user", summary Demo.alice)] |}).
Proof.
  split; [reflexivity|].
  destruct (at_demo backup_code_works_without_secret
              [with_securitySettings Demo.alice
                 {| twoFactorEnabled := true; twoFactorSecret := Some "garbage";
                    twoFactorBackupCodes := Some ["11111111"] |}]
              "alice@example.com" "11111111" _ _
              eq_refl eq_refl eq_refl eq_refl (or_introl eq_refl))
    as [H1 H2].
  exact (conj (H1 "619585") H2).
Defined.




Lemma expired_verification_token_rejected_witness :
  Account.emailVerificationExpires AccountDemo.dave = Some 2000%Z
  /\ AccountDemo.serve (Account.VerifyEmail "ev0001") 2000 AccountDemo.world
     = (AccountDemo.world,
        {| status := 400; json := message "Invalid or expired token" |}).
Proof.
  split; [reflexivity|].
  apply (at_account_demo expired_verification_token_rejected
           AccountDemo.delivers AccountDemo.world "ev0001" 2000%Z).
  intros b x [<- | [<- | []]]; simpl; intros Ht Hx;
    [injection Hx as <-; lia | discriminate].
Defined.



Lemma forgot_password_reveals_registration_witness :
  AccountDemo.isEmail "nobody@example.com" = true
  /\ AccountDemo.serve (Account.ForgotPassword "nobody@example.com" 4) 1000
                       AccountDemo.world
     = (AccountDemo.world, {| status := 400; json := message "User not found" |}).
Proof.
  split; [reflexivity|].
  exact (proj1 (at_account_demo forgot_password_reveals_registration
                  AccountDemo.delivers AccountDemo.world
                  "nobody@example.com" 4%nat 1000%Z eq_refl)
               eq_refl).
Defined.

Lemma forgot_password_saves_before_sending_witness :
  AccountDemo.isEmail "erin@example.com" = true
  /\ snd (AccountDemo.serve_bouncing (Account.ForgotPassword "erin@example.com" 9)
                                     1000 AccountDemo.world)
     = {| status := 500; json := message "Server error" |}
  /\ Account.users
       (fst (AccountDemo.serve_bouncing (Account.ForgotPassword "erin@example.com" 9)
                                        1000 AccountDemo.world))
     = Account.replace
         (fst (AccountDemo.generatePasswordResetToken AccountDemo.erin 9 1000))
         (Account.users AccountDemo.world).
Proof.
  split; [reflexivity|].
  destruct (at_account_demo forgot_password_saves_before_sending
              AccountDemo.bounces AccountDemo.world "erin@example.com" 9%nat
              1000%Z AccountDemo.erin eq_refl eq_refl)
    as [mail [_ [H2 [_ H4]]]].
  exact (conj (proj1 (H4 eq_refl)) H2).
Defined.

Lemma register_rejects_taken_email_or_username_witness :
  (3 <= Account.validatorLength (AccountDemo.trim " dave "))%nat
  /\ username (Account.core AccountDemo.dave) = AccountDemo.trim " dave "
  /\ AccountDemo.serve (Account.Register " dave " "other@example.com" "secret1" 3)
                       1000 AccountDemo.world
     = (AccountDemo.world,
        {| status := 400; json := message "User already exists" |}).
Proof.
  assert (H : (3 <= Account.validatorLength (AccountDemo.trim " dave "))%nat)
    by (vm_compute; lia).
  split; [exact H | split; [reflexivity|]].
  exact (at_account_demo register_rejects_taken_email_or_username
           AccountDemo.delivers AccountDemo.world
           " dave " "other@example.com" "secret1" 3%nat 1000%Z AccountDemo.dave
           H eq_refl ltac:(vm_compute; lia) (or_introl eq_refl) (or_intror eq_refl)).
Defined.

Lemma register_stores_account_before_mail_witness :
  find (Account.hasEmailOrUsername "frank@example.com" "frank")
       (Account.users AccountDemo.world) = None
  /\ exists doc,
       Account.users
         (fst (AccountDemo.serve_bouncing
                 (Account.Register " frank " "frank@example.com" "secret1" 3)
                 1000 AccountDemo.world))
       = Account.users AccountDemo.world
         ++ [Account.hashed AccountDemo.hashPassword doc]
       /\ snd (AccountDemo.serve_bouncing
                 (Account.Register " frank " "frank@example.com" "secret1" 3)
                 1000 AccountDemo.world)
          = {| status := 500; json := message "Server error" |}.
Proof.
  split; [reflexivity|].
  destruct (at_account_demo register_stores_account_before_mail
              AccountDemo.bounces AccountDemo.world
              " frank " "frank@example.com" "secret1" 3%nat 1000%Z
              ltac:(vm_compute; lia) eq_refl ltac:(vm_compute; lia) eq_refl)
    as [doc [token [mail [_ [_ [H3 [_ H5]]]]]]].
  exists doc. exact (conj H3 (proj1 (H5 eq_refl))).
Defined.


Lemma change_password_writes_the_hash_only_witness :
  AccountDemo.comparePassword (Account.core AccountDemo.erin) "erin-pw" = true
  /\ find (Account.hasId "id0002")
          (Account.users
             (fst (AccountDemo.serve
                     (Account.ChangePassword "id0002" (Some "erin-pw") "newpass")
                     1000 AccountDemo.world)))
     = Some (Account.with_core AccountDemo.erin
               (Account.with_password (Account.core AccountDemo.erin) "h:newpass")).
Proof.
  split; [reflexivity|].
  exact (proj2 (at_account_demo change_password_writes_the_hash_only
                  AccountDemo.delivers AccountDemo.world
                  "id0002" "erin-pw" "newpass" 1000%Z AccountDemo.erin
                  ltac:(vm_compute; lia) eq_refl eq_refl)).
Defined.


Lemma client_error_changes_nothing_witness :
  status (snd (AccountDemo.serve (Account.VerifyEmail "unknown") 1000
                                 AccountDemo.world)) = 400%nat
  /\ fst (AccountDemo.serve (Account.VerifyEmail "unknown") 1000 AccountDemo.world)
     = AccountDemo.world.
Proof.
  split; [reflexivity|].
  exact (at_account_demo client_error_changes_nothing
           AccountDemo.delivers (Account.VerifyEmail "unknown") 1000%Z
           AccountDemo.world (or_introl eq_refl)).
Defined.
